(** * squirrel_navigation: the local planner

    A shallow embedding of [squirrel_navigation/src/local_planner.cpp]
    (class [LocalPlanner], a [nav_core::BaseLocalPlanner] plugin) and the
    properties of its control tick, goal tracking, plan intake, twist
    shaping and locking.

    Conventions of the embedding:
    - a C++ [double] is a real number ([R]); executions in which the code
      would divide by zero are reported as a fault ([None]) instead of a NaN;
    - member functions that are [const] in the source are functions of the
      planner state; the others run in the monad [M] below, which threads the
      planner state and records the calls, the accesses to the shared members
      and the lock operations in program order;
    - an out-parameter is an argument holding the value of the destination
      before the call, and a result;
    - log output ([ROS_INFO_STREAM] and the like) and the contents of the
      published visualisation messages are left out. *)

From Stdlib Require Import Reals Lra Lia List Bool String ZArith.
Import ListNotations.

Set Implicit Arguments.

Local Open Scope R_scope.

(** ** Messages ([geometry_msgs], [nav_msgs], [std_msgs]) *)

Module Time.
(** [ros::Time]: only ever passed on by the planner. *)
Record t := mk { sec : Z; nsec : Z }.
End Time.

Module Header.
Record t := mk { stamp : Time.t; frame_id : string }.
End Header.

Module Vector3.
Record t := mk { x : R; y : R; z : R }.
End Vector3.

Module Point.
Record t := mk { x : R; y : R; z : R }.
End Point.

Module Quaternion.
(** The planner reads an orientation only through [tf::getYaw]; the
    quaternion is kept as the heading that [tf::getYaw] extracts. *)
Record t := mk { heading : R }.
End Quaternion.

Module Twist.
Record t := mk { linear : Vector3.t; angular : Vector3.t }.
End Twist.

Module Pose.
Record t := mk { position : Point.t; orientation : Quaternion.t }.
End Pose.

Module PoseStamped.
Record t := mk { header : Header.t; pose : Pose.t }.
End PoseStamped.

Module TwistStamped.
Record t := mk { header : Header.t; twist : Twist.t }.
End TwistStamped.

Module Odometry.
(** [nav_msgs::Odometry] without the covariances, which are never read:
    [pose] is [odom->pose.pose] and [twist] is [odom->twist.twist]. *)
Record t := mk { header : Header.t; pose : Pose.t; twist : Twist.t }.
End Odometry.

Module tf.
Definition getYaw (q : Quaternion.t) : R := Quaternion.heading q.
End tf.

(** Assignments to single members of a twist. *)

Definition set_linear_x (v : R) (t : Twist.t) : Twist.t :=
  Twist.mk
    (Vector3.mk v (Vector3.y (Twist.linear t)) (Vector3.z (Twist.linear t)))
    (Twist.angular t).

Definition set_linear_y (v : R) (t : Twist.t) : Twist.t :=
  Twist.mk
    (Vector3.mk (Vector3.x (Twist.linear t)) v (Vector3.z (Twist.linear t)))
    (Twist.angular t).

Definition set_angular_z (v : R) (t : Twist.t) : Twist.t :=
  Twist.mk
    (Twist.linear t)
    (Vector3.mk (Vector3.x (Twist.angular t)) (Vector3.y (Twist.angular t)) v).

(** A default-constructed [geometry_msgs::Twist]. *)
Definition Twist_default : Twist.t :=
  Twist.mk (Vector3.mk 0 0 0) (Vector3.mk 0 0 0).

(** The planar part of a twist: [(linear.x, linear.y, angular.z)]. *)
Definition planar (t : Twist.t) : R * R * R :=
  (Vector3.x (Twist.linear t), Vector3.y (Twist.linear t),
   Vector3.z (Twist.angular t)).

(** ** [<cmath>] *)

Definition hypot (a b : R) : R := sqrt (a * a + b * b).

Definition copysign (a b : R) : R :=
  if Rlt_dec b 0 then - Rabs a else Rabs a.

(** What [safeVelocityCommands] makes of a linear velocity [(x, y)] under the
    bound [m], and of an angular velocity [w] under the bound [m], when no
    division by zero occurs. *)
Definition clamped_linear (m x y : R) : R * R :=
  if Rgt_dec (hypot x y) m then (m * x / hypot x y, m * y / hypot x y)
  else (x, y).

Definition clamped_angular (m w : R) : R :=
  if Rgt_dec (Rabs w) m then copysign m w else w.

(** The linear and the angular speed of a twist. *)
Definition lin_speed (t : Twist.t) : R :=
  hypot (Vector3.x (Twist.linear t)) (Vector3.y (Twist.linear t)).

Definition ang_speed (t : Twist.t) : R := Rabs (Vector3.z (Twist.angular t)).

(** Division as the code performs it, with the zero divisor made visible. *)
Definition fdiv (a b : R) : option R :=
  if Req_dec_T b 0 then None else Some (a / b).

(** ** [LocalPlanner::Params] *)

Record Params := mkParams {
  odom_topic : string;
  goal_lin_tolerance : R;
  goal_ang_tolerance : R;
  max_safe_lin_velocity : R;
  max_safe_ang_velocity : R;
  max_safe_lin_displacement : R;
  max_safe_ang_displacement : R;
  safety_observers : list string;
  verbose : bool
}.

Definition defaultParams : Params :=
  {| odom_topic := "/odom";
     goal_ang_tolerance := 0.05;
     goal_lin_tolerance := 0.05;
     max_safe_lin_velocity := 0.5;
     max_safe_ang_velocity := 0.7;
     max_safe_lin_displacement := 0.5;
     max_safe_ang_displacement := 1.0;
     safety_observers := ["scan_safety_observer"; "arm_skin_observer"]%string;
     verbose := false |}.

(** ** Collaborators

    The planner drives them through interfaces; their implementations are
    not part of the planner and stay abstract. *)

Module SafetyObserver.
(** [safety::ScanObserver], [safety::ArmSkinObserver]: [safe()] reads the
    last verdict of the observer. *)
Class ops (O : Type) := { safe : O -> bool }.
End SafetyObserver.

Module MotionPlanner.
(** [reset(waypoints, stamp)], [update(waypoints, stamp)] and
    [computeReference(stamp, &ref_pose, &ref_twist)]. *)
Class ops (MP : Type) := {
  reset : list PoseStamped.t -> Time.t -> MP -> MP;
  update : list PoseStamped.t -> Time.t -> MP -> MP;
  computeReference : Time.t -> MP -> Pose.t * Twist.t * MP
}.
End MotionPlanner.

Module Controller.
(** [reset(stamp)] and
    [computeCommand(stamp, pose, ref_pose, twist, ref_twist, &cmd)]. *)
Class ops (C : Type) := {
  reset : Time.t -> C -> C;
  computeCommand :
    Time.t -> Pose.t -> Pose.t -> Twist.t -> Twist.t -> C -> Twist.t * C
}.
End Controller.

Module math.
(** [math::linearDistance2D] and [math::angularDistanceYaw] of
    [utils/math_utils.h]. *)
Class ops := {
  linearDistance2D : Pose.t -> Pose.t -> R;
  angularDistanceYaw : Pose.t -> Pose.t -> R
}.
End math.

Module TransformListener.
(** [tf::TransformListener::transformPose(target, in, out)]; [None] is a
    [tf::TransformException]. *)
Class ops := {
  transformPose : string -> PoseStamped.t -> option PoseStamped.t
}.
End TransformListener.

(** Modelled from the spec: the [ReplanningGuard] class behind
    [ReplanningGuardInstance::get()], whose header is not among the sources.
    The spec describes a process-wide flag, true when a global replan is owed,
    that [clear()] resets; [replanningFlag()] reads the flag.  [enabled()]
    appears in the planner only; it is a second boolean of the guard. *)
Module ReplanningGuard.
Record t := mk { enabled_ : bool; replanning_flag_ : bool }.
Definition enabled (g : t) : bool := enabled_ g.
Definition replanningFlag (g : t) : bool := replanning_flag_ g.
Definition clear (g : t) : t := mk (enabled_ g) false.
End ReplanningGuard.

(** ** Events *)

(** The members guarded by [state_mtx_]. *)
Inductive Shared := robot_pose | robot_twist | current_goal.

Inductive Callee :=
| computeReference_
| computeCommand_
| controller_reset_
| motion_planner_reset_
| motion_planner_update_
| guard_clear_
| publishReference_
| publishTrajectory_
| publishTwist_
| waitForTransform_
| transformPose_.

Inductive Event :=
| Lock
| Unlock
| Read (m : Shared)
| Write (m : Shared)
| Call (c : Callee).

(** [waitForTransform] waits for the transform, up to its timeout. *)
Definition blocking (c : Callee) : bool :=
  match c with
  | waitForTransform_ => true
  | _ => false
  end.

(** The locking discipline on a trace: the shared members are accessed only
    with the lock held, no blocking call is made with the lock held, and the
    lock is taken and released alternately.  [held] tells whether the lock is
    held before the first event. *)
Fixpoint disciplined (held : bool) (tr : list Event) : bool :=
  match tr with
  | [] => true
  | Lock :: tr' => negb held && disciplined true tr'
  | Unlock :: tr' => held && disciplined false tr'
  | Read _ :: tr' => held && disciplined held tr'
  | Write _ :: tr' => held && disciplined held tr'
  | Call c :: tr' => negb (held && blocking c) && disciplined held tr'
  end.

(** The accesses to the shared members that a trace makes without the lock. *)
Fixpoint unguarded (held : bool) (tr : list Event) : list Event :=
  match tr with
  | [] => []
  | Lock :: tr' => unguarded true tr'
  | Unlock :: tr' => unguarded false tr'
  | Read m :: tr' =>
      if held then unguarded held tr' else Read m :: unguarded held tr'
  | Write m :: tr' =>
      if held then unguarded held tr' else Write m :: unguarded held tr'
  | Call _ :: tr' => unguarded held tr'
  end.

(** The blocking calls that a trace makes with the lock held. *)
Fixpoint blocked_under_lock (held : bool) (tr : list Event) : list Callee :=
  match tr with
  | [] => []
  | Lock :: tr' => blocked_under_lock true tr'
  | Unlock :: tr' => blocked_under_lock false tr'
  | Call c :: tr' =>
      if held && blocking c then c :: blocked_under_lock held tr'
      else blocked_under_lock held tr'
  | _ :: tr' => blocked_under_lock held tr'
  end.

(** ** The planner *)

Section LocalPlanner.

Context {O MP C : Type}.
Context {observer : SafetyObserver.ops O}.
Context {planner : MotionPlanner.ops MP}.
Context {controller : Controller.ops C}.
Context {mathops : math.ops}.
Context {tfl : TransformListener.ops}.

(** The members of [LocalPlanner] that the operations touch, the frame
    name that [costmap_ros_->getGlobalFrameID()] answers, and the
    process-wide [ReplanningGuardInstance]. *)
Record State := mkState {
  params_ : Params;
  robot_pose_ : PoseStamped.t;
  robot_twist_ : TwistStamped.t;
  current_goal_ : option Pose.t;
  controller_ : C;
  motion_planner_ : MP;
  safety_observers_ : list O;
  global_frame_id : string;
  replanning_guard : ReplanningGuard.t
}.

Definition set_robot_pose (p : PoseStamped.t) (s : State) : State :=
  mkState (params_ s) p (robot_twist_ s) (current_goal_ s) (controller_ s)
    (motion_planner_ s) (safety_observers_ s) (global_frame_id s)
    (replanning_guard s).

Definition set_robot_twist (t : Twist.t) (s : State) : State :=
  mkState (params_ s) (robot_pose_ s)
    (TwistStamped.mk (TwistStamped.header (robot_twist_ s)) t)
    (current_goal_ s) (controller_ s) (motion_planner_ s)
    (safety_observers_ s) (global_frame_id s) (replanning_guard s).

Definition set_current_goal (g : option Pose.t) (s : State) : State :=
  mkState (params_ s) (robot_pose_ s) (robot_twist_ s) g (controller_ s)
    (motion_planner_ s) (safety_observers_ s) (global_frame_id s)
    (replanning_guard s).

Definition set_controller (c : C) (s : State) : State :=
  mkState (params_ s) (robot_pose_ s) (robot_twist_ s) (current_goal_ s) c
    (motion_planner_ s) (safety_observers_ s) (global_frame_id s)
    (replanning_guard s).

Definition set_motion_planner (m : MP) (s : State) : State :=
  mkState (params_ s) (robot_pose_ s) (robot_twist_ s) (current_goal_ s)
    (controller_ s) m (safety_observers_ s) (global_frame_id s)
    (replanning_guard s).

Definition set_replanning_guard (g : ReplanningGuard.t) (s : State) : State :=
  mkState (params_ s) (robot_pose_ s) (robot_twist_ s) (current_goal_ s)
    (controller_ s) (motion_planner_ s) (safety_observers_ s)
    (global_frame_id s) g.

(** *** The monad of the non-const member functions *)

Definition M (A : Type) : Type :=
  State -> list Event * option (A * State).

Definition ret {A} (a : A) : M A := fun s => ([], Some (a, s)).

Definition bind {A B} (m : M A) (k : A -> M B) : M B :=
  fun s =>
    match m s with
    | (tr, Some (a, s')) =>
        match k a s' with
        | (tr', r) => (tr ++ tr', r)
        end
    | (tr, None) => (tr, None)
    end.

Definition get : M State := fun s => ([], Some (s, s)).

Definition modify (f : State -> State) : M unit :=
  fun s => ([], Some (tt, f s)).

Definition emit (e : Event) : M unit := fun s => ([e], Some (tt, s)).

(** An arithmetic fault: the execution leaves the model. *)
Definition arith {A} (o : option A) : M A :=
  fun s =>
    match o with
    | Some a => ([], Some (a, s))
    | None => ([], None)
    end.

Definition trace {A} (r : list Event * option (A * State)) : list Event :=
  fst r.

Definition outcome {A} (r : list Event * option (A * State))
  : option (A * State) := snd r.

Notation "x <- m ;; k" := (bind m (fun x => k))
  (at level 61, m at next level, right associativity).
Notation "m ;; k" := (bind m (fun _ => k))
  (at level 61, right associativity).
Notation "' pat <- m ;; k" :=
  (bind m (fun x => match x with pat => k end))
  (at level 61, pat pattern, m at next level, right associativity).

(** An access to a shared member: the event, and the state it sees. *)
Definition reading (m : Shared) : M State := emit (Read m) ;; get.

Definition writing (m : Shared) (f : State -> State) : M unit :=
  emit (Write m) ;; modify f.

Definition Rgtb (a b : R) : bool := if Rgt_dec a b then true else false.
Definition Rleb (a b : R) : bool := if Rle_dec a b then true else false.

(** *** The const member functions *)

Definition twistToGlobalFrame (st : State) (robot_twist map_twist : Twist.t)
  : Twist.t :=
  let robot_yaw :=
    tf.getYaw (Pose.orientation (PoseStamped.pose (robot_pose_ st))) in
  let c := cos robot_yaw in
  let s := sin robot_yaw in
  let map_twist :=
    set_linear_x (c * Vector3.x (Twist.linear robot_twist)
                  - s * Vector3.y (Twist.linear robot_twist)) map_twist in
  let map_twist :=
    set_linear_y (s * Vector3.x (Twist.linear robot_twist)
                  + s * Vector3.y (Twist.linear robot_twist)) map_twist in
  set_angular_z (Vector3.z (Twist.angular robot_twist)) map_twist.

Definition twistToRobotFrame (st : State) (map_twist robot_twist : Twist.t)
  : Twist.t :=
  let robot_yaw :=
    tf.getYaw (Pose.orientation (PoseStamped.pose (robot_pose_ st))) in
  let c := cos (- robot_yaw) in
  let s := sin (- robot_yaw) in
  let robot_twist :=
    set_linear_x (c * Vector3.x (Twist.linear map_twist)
                  - s * Vector3.y (Twist.linear map_twist)) robot_twist in
  let robot_twist :=
    set_linear_y (s * Vector3.x (Twist.linear map_twist)
                  + c * Vector3.y (Twist.linear map_twist)) robot_twist in
  set_angular_z (Vector3.z (Twist.angular map_twist)) robot_twist.

(** [*safe_twist = twist] overwrites the destination, so its former value
    plays no part. *)
Definition safeVelocityCommands (st : State) (twist : Twist.t)
  : option Twist.t :=
  let safe_twist := twist in
  let twist_lin_magnitude :=
    hypot (Vector3.x (Twist.linear twist)) (Vector3.y (Twist.linear twist)) in
  let rescaled :=
    if Rgt_dec twist_lin_magnitude (max_safe_lin_velocity (params_ st)) then
      match
        fdiv (max_safe_lin_velocity (params_ st)
              * Vector3.x (Twist.linear twist)) twist_lin_magnitude,
        fdiv (max_safe_lin_velocity (params_ st)
              * Vector3.y (Twist.linear twist)) twist_lin_magnitude
      with
      | Some vx, Some vy => Some (set_linear_y vy (set_linear_x vx safe_twist))
      | _, _ => None
      end
    else Some safe_twist in
  match rescaled with
  | Some safe_twist =>
      let twist_ang_magnitude := Rabs (Vector3.z (Twist.angular twist)) in
      if Rgt_dec twist_ang_magnitude (max_safe_ang_velocity (params_ st)) then
        Some (set_angular_z
                (copysign (max_safe_ang_velocity (params_ st))
                   (Vector3.z (Twist.angular twist))) safe_twist)
      else Some safe_twist
  | None => None
  end.

Definition newGoal (st : State) (pose : Pose.t) : bool :=
  match current_goal_ st with
  | None => true
  | Some goal =>
      let new_position := Rgtb (math.linearDistance2D goal pose) 1e-8 in
      let new_orientation := Rgtb (math.angularDistanceYaw goal pose) 1e-8 in
      new_position || new_orientation
  end.

(** *** Calls on the collaborators *)

Definition motion_planner_computeReference (stamp : Time.t)
  : M (Pose.t * Twist.t) :=
  emit (Call computeReference_) ;;
  s <- get ;;
  match MotionPlanner.computeReference stamp (motion_planner_ s) with
  | (ref_pose, ref_twist, mp) =>
      modify (set_motion_planner mp) ;; ret (ref_pose, ref_twist)
  end.

Definition controller_computeCommand (stamp : Time.t)
    (pose ref_pose : Pose.t) (twist ref_twist : Twist.t) : M Twist.t :=
  emit (Call computeCommand_) ;;
  s <- get ;;
  match
    Controller.computeCommand stamp pose ref_pose twist ref_twist
      (controller_ s)
  with
  | (cmd, c) => modify (set_controller c) ;; ret cmd
  end.

Definition controller_reset (stamp : Time.t) : M unit :=
  emit (Call controller_reset_) ;;
  modify (fun s => set_controller (Controller.reset stamp (controller_ s)) s).

Definition motion_planner_reset (waypoints : list PoseStamped.t)
    (stamp : Time.t) : M unit :=
  emit (Call motion_planner_reset_) ;;
  modify (fun s =>
    set_motion_planner
      (MotionPlanner.reset waypoints stamp (motion_planner_ s)) s).

Definition motion_planner_update (waypoints : list PoseStamped.t)
    (stamp : Time.t) : M unit :=
  emit (Call motion_planner_update_) ;;
  modify (fun s =>
    set_motion_planner
      (MotionPlanner.update waypoints stamp (motion_planner_ s)) s).

Definition replanning_guard_clear : M unit :=
  emit (Call guard_clear_) ;;
  modify (fun s =>
    set_replanning_guard (ReplanningGuard.clear (replanning_guard s)) s).

(** *** The operations *)

Definition stamp_of (s : State) : Time.t :=
  Header.stamp (PoseStamped.header (robot_pose_ s)).

(** The body of [computeVelocityCommands], run with [state_mtx_] held. *)
Definition computeVelocityCommands_locked (cmd : Twist.t)
  : M (bool * Twist.t) :=
  s <- get ;;
  (* Check the scan observer. *)
  if existsb (fun o => negb (SafetyObserver.safe o)) (safety_observers_ s)
  then
    ret (true, set_angular_z 0 (set_linear_y 0 (set_linear_x 0 cmd)))
  else
    (* Compute the reference pose and perform safety check. *)
    s <- reading robot_pose ;;
    let stamp := stamp_of s in
    '(ref_pose, ref_twist) <- motion_planner_computeReference stamp ;;
    emit (Call publishReference_) ;;
    s <- reading robot_pose ;;
    if Rgtb (math.linearDistance2D (PoseStamped.pose (robot_pose_ s)) ref_pose)
            (max_safe_lin_displacement (params_ s))
       || Rgtb (math.angularDistanceYaw
                  (PoseStamped.pose (robot_pose_ s)) ref_pose)
               (max_safe_ang_displacement (params_ s))
    then
      writing current_goal (set_current_goal None) ;;
      (if ReplanningGuard.enabled (replanning_guard s)
       then replanning_guard_clear
       else ret tt) ;;
      ret (false, cmd)
    else
      (* Compute the commands via PID controller in map frame. *)
      s <- reading robot_pose ;;
      reading robot_twist ;;
      map_cmd <- controller_computeCommand stamp
                   (PoseStamped.pose (robot_pose_ s)) ref_pose
                   (TwistStamped.twist (robot_twist_ s)) ref_twist ;;
      (* Transform the commands in robot frame. *)
      s <- reading robot_pose ;;
      let robot_cmd := twistToRobotFrame s map_cmd Twist_default in
      (* Threshold the twist according to safety parameters. *)
      cmd <- arith (safeVelocityCommands s robot_cmd) ;;
      (* Publish the command. *)
      reading robot_pose ;;
      emit (Call publishTwist_) ;;
      ret (true, cmd).

Definition computeVelocityCommands (cmd : Twist.t) : M (bool * Twist.t) :=
  emit Lock ;;
  r <- computeVelocityCommands_locked cmd ;;
  emit Unlock ;;
  ret r.

Definition isGoalReached : M bool :=
  s <- reading current_goal ;;
  match current_goal_ s with
  | None => ret false
  | Some goal =>
      s <- reading robot_pose ;;
      if Rleb (math.linearDistance2D (PoseStamped.pose (robot_pose_ s)) goal)
              (goal_lin_tolerance (params_ s))
         && Rleb (math.angularDistanceYaw
                    (PoseStamped.pose (robot_pose_ s)) goal)
                 (goal_ang_tolerance (params_ s))
      then
        writing current_goal (set_current_goal None) ;;
        replanning_guard_clear ;;
        ret true
      else ret false
  end.

Definition setPlan (waypoints : list PoseStamped.t) : M bool :=
  match waypoints with
  | [] => ret false
  | w :: _ =>
      s <- get ;;
      if negb (ReplanningGuard.replanningFlag (replanning_guard s))
      then ret true
      else
        s <- reading robot_pose ;;
        let stamp := stamp_of s in
        let back := last waypoints w in
        s <- reading current_goal ;;
        (if newGoal s (PoseStamped.pose back) then
           writing current_goal
             (set_current_goal (Some (PoseStamped.pose back))) ;;
           controller_reset stamp ;;
           motion_planner_reset waypoints stamp
         else
           motion_planner_update waypoints stamp) ;;
        emit (Call publishTrajectory_) ;;
        ret true
  end.

(** The body of [odomCallback], run with [state_mtx_] held.  The [catch]
    clause only logs the exception. *)
Definition odomCallback_locked (odom : Odometry.t) : M unit :=
  s <- get ;;
  let map_frame_id := global_frame_id s in
  let odom_robot_pose :=
    PoseStamped.mk (Odometry.header odom) (Odometry.pose odom) in
  emit (Call waitForTransform_) ;;
  emit (Call transformPose_) ;;
  match TransformListener.transformPose map_frame_id odom_robot_pose with
  | Some p =>
      writing robot_pose (set_robot_pose p) ;;
      s <- reading robot_pose ;;
      writing robot_twist
        (set_robot_twist
           (twistToGlobalFrame s (Odometry.twist odom)
              (TwistStamped.twist (robot_twist_ s))))
  | None => ret tt
  end.

Definition odomCallback (odom : Odometry.t) : M unit :=
  emit Lock ;;
  odomCallback_locked odom ;;
  emit Unlock.

(** *** Vocabulary of the properties *)

(** Some observer of the ensemble reports unsafe. *)
Definition vetoed (st : State) : Prop :=
  exists o, In o (safety_observers_ st) /\ SafetyObserver.safe o = false.

(** The state after [setPlan] took the new-goal branch. *)
Definition after_new_goal (waypoints : list PoseStamped.t)
    (back : PoseStamped.t) (st : State) : State :=
  set_motion_planner
    (MotionPlanner.reset waypoints (stamp_of st) (motion_planner_ st))
    (set_controller (Controller.reset (stamp_of st) (controller_ st))
       (set_current_goal (Some (PoseStamped.pose back)) st)).

(** The state after [setPlan] took the update branch. *)
Definition after_update (waypoints : list PoseStamped.t) (st : State)
  : State :=
  set_motion_planner
    (MotionPlanner.update waypoints (stamp_of st) (motion_planner_ st)) st.

Definition new_goal_trace : list Event :=
  [Read robot_pose; Read current_goal; Write current_goal;
   Call controller_reset_; Call motion_planner_reset_;
   Call publishTrajectory_].

Definition update_trace : list Event :=
  [Read robot_pose; Read current_goal; Call motion_planner_update_;
   Call publishTrajectory_].

(** The terminal pose differs from [goal] by more than 1e-8 in position or
    in heading. *)
Definition differs (goal pose : Pose.t) : Prop :=
  math.linearDistance2D goal pose > 1e-8
  \/ math.angularDistanceYaw goal pose > 1e-8.

(** The robot pose is within both tolerances of [goal]. *)
Definition within_tolerance (st : State) (goal : Pose.t) : Prop :=
  math.linearDistance2D (PoseStamped.pose (robot_pose_ st)) goal
    <= goal_lin_tolerance (params_ st)
  /\ math.angularDistanceYaw (PoseStamped.pose (robot_pose_ st)) goal
     <= goal_ang_tolerance (params_ st).

(** The state after [isGoalReached] found the goal reached. *)
Definition after_reached (st : State) : State :=
  set_replanning_guard (ReplanningGuard.clear (replanning_guard st))
    (set_current_goal None st).

(** [n] successive calls of [isGoalReached]. *)
Fixpoint polls (n : nat) : M (list bool) :=
  match n with
  | 0%nat => ret []
  | S n' => b <- isGoalReached ;; bs <- polls n' ;; ret (b :: bs)
  end.

(** The robot pose deviates from [ref_pose] beyond a displacement bound. *)
Definition deviates (st : State) (ref_pose : Pose.t) : Prop :=
  math.linearDistance2D (PoseStamped.pose (robot_pose_ st)) ref_pose
    > max_safe_lin_displacement (params_ st)
  \/ math.angularDistanceYaw (PoseStamped.pose (robot_pose_ st)) ref_pose
     > max_safe_ang_displacement (params_ st).

(** The state after a tick that found the robot off the trajectory; [mp] is
    the motion planner as [computeReference] left it. *)
Definition after_deviation (mp : MP) (st : State) : State :=
  let st' := set_current_goal None (set_motion_planner mp st) in
  if ReplanningGuard.enabled (replanning_guard st)
  then set_replanning_guard (ReplanningGuard.clear (replanning_guard st)) st'
  else st'.

Definition deviation_trace (enabled : bool) : list Event :=
  [Lock; Read robot_pose; Call computeReference_; Call publishReference_;
   Read robot_pose; Write current_goal]
  ++ (if enabled then [Call guard_clear_] else [])
  ++ [Unlock].

End LocalPlanner.

Arguments State : clear implicits.

(** ** A concrete configuration

    Stand-ins for the collaborators, to run the planner on concrete inputs. *)

Module Bench.

(** An observer that holds its last verdict. *)
Record Observer := mkObserver { tag : string; verdict : bool }.

#[export] Instance observer : SafetyObserver.ops Observer :=
  {| SafetyObserver.safe := verdict |}.

(** A motion planner that answers a stored reference. *)
Record Planner := mkPlanner {
  waypoints : list PoseStamped.t;
  start : Time.t;
  ref_pose : Pose.t;
  ref_twist : Twist.t
}.

#[export] Instance planner : MotionPlanner.ops Planner :=
  {| MotionPlanner.reset :=
       fun w t p => mkPlanner w t (ref_pose p) (ref_twist p);
     MotionPlanner.update :=
       fun w _ p => mkPlanner w (start p) (ref_pose p) (ref_twist p);
     MotionPlanner.computeReference :=
       fun _ p => (ref_pose p, ref_twist p, p) |}.

(** A controller that feeds the reference twist forward and counts its
    steps since the last reset. *)
#[export] Instance controller : Controller.ops nat :=
  {| Controller.reset := fun _ _ => 0%nat;
     Controller.computeCommand :=
       fun _ _ _ _ ref_twist n => (ref_twist, S n) |}.

(** Modelled from the spec: [math::linearDistance2D] and
    [math::angularDistanceYaw] of [utils/math_utils.h], which is not among
    the sources: the distance between the planar positions of two poses, and
    the absolute difference of their headings. *)
#[export] Instance mathops : math.ops :=
  {| math.linearDistance2D := fun a b =>
       hypot (Point.x (Pose.position a) - Point.x (Pose.position b))
             (Point.y (Pose.position a) - Point.y (Pose.position b));
     math.angularDistanceYaw := fun a b =>
       Rabs (tf.getYaw (Pose.orientation a)
             - tf.getYaw (Pose.orientation b)) |}.

(** A transform provider that knows the map frame only. *)
#[export] Instance tfl : TransformListener.ops :=
  {| TransformListener.transformPose := fun target p =>
       if String.eqb (Header.frame_id (PoseStamped.header p)) target
       then Some p else None |}.

Definition pose2d (x y yaw : R) : Pose.t :=
  Pose.mk (Point.mk x y 0) (Quaternion.mk yaw).

Definition twist2d (vx vy w : R) : Twist.t :=
  Twist.mk (Vector3.mk vx vy 0) (Vector3.mk 0 0 w).

Definition header0 : Header.t := Header.mk (Time.mk 0 0) "map".

Definition stamped (p : Pose.t) : PoseStamped.t := PoseStamped.mk header0 p.

(** A planner state: the robot at [at_pose] and at rest, the reference at
    [reference], the default parameters. *)
Definition state (at_pose reference : Pose.t) (goal : option Pose.t)
    (observers : list Observer) (guard : ReplanningGuard.t)
  : State Observer Planner nat :=
  mkState defaultParams (stamped at_pose)
    (TwistStamped.mk header0 (twist2d 0 0 0)) goal 0%nat
    (mkPlanner [] (Time.mk 0 0) reference (twist2d 0 0 0))
    observers "map" guard.

End Bench.

(** ** The planner, continued *)

Module LocalPlannerConfig.
(** The members of the [dynamic_reconfigure] configuration that
    [reconfigureCallback] reads. *)
Record t := mk {
  odom_topic : string;
  goal_lin_tolerance : R;
  goal_ang_tolerance : R;
  max_safe_lin_velocity : R;
  max_safe_ang_velocity : R;
  max_safe_lin_displacement : R;
  max_safe_ang_displacement : R;
  verbose : bool
}.
End LocalPlannerConfig.

(** The observers that [initialize] can build. *)
Inductive ObserverKind := ScanObserver | ArmSkinObserver.

Section LocalPlannerMore.

Context {O MP C : Type}.
Context {observer : SafetyObserver.ops O}.
Context {planner : MotionPlanner.ops MP}.
Context {controller : Controller.ops C}.
Context {mathops : math.ops}.
Context {tfl : TransformListener.ops}.

Local Notation "'St'" := (State O MP C).



(** The loop of [initialize] over the configured tags;
    [scan_tag] is [safety::ScanObserver::tag] and [arm_tag] is
    [safety::ArmSkinObserver::tag], which the headers of the observers
    define.  The two tests of an iteration are independent. *)
Fixpoint build_safety_observers (scan_tag arm_tag : string)
    (tags : list string) (safety_observers_ : list ObserverKind)
  : list ObserverKind :=
  match tags with
  | [] => safety_observers_
  | safety_observer_tag :: tags' =>
      let safety_observers_ :=
        if String.eqb safety_observer_tag scan_tag
        then safety_observers_ ++ [ScanObserver]
        else safety_observers_ in
      let safety_observers_ :=
        if String.eqb safety_observer_tag arm_tag
        then safety_observers_ ++ [ArmSkinObserver]
        else safety_observers_ in
      build_safety_observers scan_tag arm_tag tags' safety_observers_
  end.

(** The rotation of the planar part of a twist by the angle [a]. *)
Definition rotated (a : R) (t : Twist.t) : R * R * R :=
  (cos a * Vector3.x (Twist.linear t) - sin a * Vector3.y (Twist.linear t),
   sin a * Vector3.x (Twist.linear t) + cos a * Vector3.y (Twist.linear t),
   Vector3.z (Twist.angular t)).

Definition robot_yaw (st : St) : R :=
  tf.getYaw (Pose.orientation (PoseStamped.pose (robot_pose_ st))).

(** The state after a tick that followed the trajectory: [mp] is the motion
    planner as [computeReference] left it and [c] the controller as
    [computeCommand] left it. *)
Definition after_tracking (mp : MP) (c : C) (st : St) : St :=
  set_controller c (set_motion_planner mp st).

Definition tracking_trace : list Event :=
  [Lock; Read robot_pose; Call computeReference_; Call publishReference_;
   Read robot_pose; Read robot_pose; Read robot_twist; Call computeCommand_;
   Read robot_pose; Read robot_pose; Call publishTwist_; Unlock].

(** What a tick emits before it faults on a division by zero. *)
Definition fault_trace : list Event :=
  [Lock; Read robot_pose; Call computeReference_; Call publishReference_;
   Read robot_pose; Read robot_pose; Read robot_twist; Call computeCommand_;
   Read robot_pose].

(** The command after a veto. *)
Definition stopped (cmd : Twist.t) : Twist.t :=
  set_angular_z 0 (set_linear_y 0 (set_linear_x 0 cmd)).

(** The state after [odomCallback] resolved the transform to [p]. *)
Definition after_odometry (p : PoseStamped.t) (odom : Odometry.t) (st : St)
  : St :=
  let st' := set_robot_pose p st in
  set_robot_twist
    (twistToGlobalFrame st' (Odometry.twist odom)
       (TwistStamped.twist (robot_twist_ st'))) st'.

End LocalPlannerMore.

From Stdlib Require Import Ascii Permutation.

(** * squirrel_navigation: [CellData.h] *)

Module CellData.
(** The members of [CellData]; an [unsigned int] is a natural number. *)
Record t := mk {
  distance_ : R;
  index_ : N;
  x_ : N;
  y_ : N;
  src_x_ : N;
  src_y_ : N
}.

End CellData.

(** * squirrel_dynamic_filter: [preprocessing.cpp]

    The node [tfPointCloud].  A [float] is a real number or one of the three
    values that are not finite; the conversions between [sensor_msgs] clouds
    and [pcl] clouds ([pcl::fromROSMsg], [pcl::toROSMsg]) are the identity on
    the list of points. *)

Inductive float := Finite (r : R) | PInf | NInf | NaN.

(** [pcl_isfinite]. *)
Definition isfinite (f : float) : bool :=
  match f with
  | Finite _ => true
  | _ => false
  end.

(** [a < b] on floats: false whenever an operand is a NaN. *)
Definition flt (a b : float) : bool :=
  match a, b with
  | NaN, _ => false
  | _, NaN => false
  | Finite x, Finite y => if Rlt_dec x y then true else false
  | Finite _, PInf => true
  | Finite _, NInf => false
  | PInf, _ => false
  | NInf, NInf => false
  | NInf, _ => true
  end.

(** [a > b]. *)
Definition fgt (a b : float) : bool := flt b a.

Module PointXYZ.
Record t := mk { x : float; y : float; z : float }.
End PointXYZ.

(** A C++ [int]: 32 bits, two's complement. *)
Definition int_wrap (n : Z) : Z := ((n + 2 ^ 31) mod 2 ^ 32 - 2 ^ 31)%Z.

(** ** Reading the sensor pose *)

(** One round of the loop over the seven fields of a line:
    [found = line.find(",")], the field [line.substr(0, found)] and the rest
    [line.substr(found + 1)].  Without a comma [found] is [npos]: the field
    is the whole line and, [npos + 1] being 0, the rest is the whole line
    again. *)
Definition next_field (line : string) : string * string :=
  match index 0 "," line with
  | Some found =>
      (substring 0 found line,
       substring (S found) (String.length line - S found) line)
  | None => (line, line)
  end.

(** The texts of the first [n] fields that the loop reads from a line. *)
Fixpoint fields (n : nat) (line : string) : list string :=
  match n with
  | O => []
  | S n' =>
      match next_field line with
      | (field, rest) => field :: fields n' rest
      end
  end.

(** The body of the [while (getline (myfile, line))] loop: the seven
    entries of [trans], each the [atof] of a field. *)
Definition read_line (atof : string -> R) (line : string) : list R :=
  map atof (fields 7 line).

(** The whole loop: every line overwrites [trans]. *)
Fixpoint read_lines (atof : string -> R) (lines : list string)
    (trans : list R) : list R :=
  match lines with
  | [] => trans
  | line :: lines' => read_lines atof lines' (read_line atof line)
  end.

(** ** Static and potentially dynamic points *)

(** The test of the parallel loop on a point. *)
Definition ground_or_far (static_front_threshold : float) (p : PointXYZ.t)
  : bool :=
  flt (PointXYZ.z p) (Finite 0.02)
  || fgt (PointXYZ.x p) static_front_threshold.

(** The vector [is_ground] after the loop over the points.  It starts all
    false, and round [i] sets [is_ground[i]] when point [i] passes the test.
    The loop is marked [#pragma omp parallel for] and [is_ground] is a
    [std::vector<bool>], which packs its flags into the bits of words: a
    round that sets its flag reads the word, sets the bit and stores the
    word, so of two threads at work on one word the later store can undo
    the earlier.  No round clears a bit.  So a flag ends up set only if its
    point passes the test, and then only if the store is not undone, which
    [survives] tells for each position; built without OpenMP, or run on one
    thread, every store survives. *)
Definition is_ground (survives : nat -> bool) (static_front_threshold : float)
    (points : list PointXYZ.t) : list bool :=
  map (fun ip =>
         ground_or_far static_front_threshold (snd ip) && survives (fst ip))
    (combine (seq 0 (List.length points)) points).

(** The positions [0 .. n - 1] of a cloud of [n] points. *)
Definition positions (n : nat) : list Z := map Z.of_nat (seq 0 n).

(** The loop over [is_ground] that fills the two index vectors. *)
Fixpoint push_indices (flags : list bool) (count : Z)
    (static_indices dynamic_indices : list Z) : list Z * list Z :=
  match flags with
  | [] => (static_indices, dynamic_indices)
  | ground :: flags' =>
      if negb ground
      then push_indices flags' (int_wrap (count + 1)) static_indices
             (dynamic_indices ++ [count])
      else push_indices flags' (int_wrap (count + 1))
             (static_indices ++ [count]) dynamic_indices
  end.

(** The points of [cloud] that survive the test on [point.x]. *)
Definition remove_infinite (cloud : list PointXYZ.t) : list PointXYZ.t :=
  filter (fun point => isfinite (PointXYZ.x point)) cloud.

(** [pcl::copyPointCloud(cloud, indices, out)]: the points at the indices,
    in the order of the indices; it is used on indices within the cloud
    only, and an index outside contributes nothing here. *)
Definition copyPointCloud (cloud : list PointXYZ.t) (indices : list Z)
  : list PointXYZ.t :=
  flat_map (fun i =>
              if (i <? 0)%Z then []
              else match nth_error cloud (Z.to_nat i) with
                   | Some p => [p]
                   | None => []
                   end) indices.

Module tfPointCloud.

(** The request of the [dynamic_filter] service. *)
Record Request := mkRequest {
  cloud : list PointXYZ.t;
  odometry : list float;
  frame_id : Z
}.

(** [squirrel_dynamic_filter_msgs::CloudMsg]. *)
Record CloudMsg := mkCloudMsg {
  cloud_msg : list PointXYZ.t;
  msg_odometry : list float
}.

(** What the node takes from its surroundings: the lines of a file
    ([None] when it cannot be opened), [atof], [g2o::internal::fromVectorQT]
    (a 4x4 matrix of doubles, as its rows), the conversion from [double] to
    [float], the contents of the uninitialised [trans] and
    [sensor_to_base_link_trans], [pcl::transformPointCloud], the value that
    [getParam("TransformFound", ...)] leaves in [transform_found], the
    call of the service ([None] when it fails, otherwise
    [response.cloud_static]), and the run of the threads of the parallel
    loop of [preprocessing]: for the frame with a given [counter] and
    processed cloud, the positions whose store into [is_ground] is not
    undone by another thread. *)
Class ops := {
  lines_of_file : string -> option (list string);
  atof : string -> R;
  fromVectorQT : list R -> list (list R);
  to_float : R -> float;
  indeterminate_trans : list R;
  indeterminate_isometry : list (list R);
  transformPointCloud :
    list PointXYZ.t -> list (list float) -> list PointXYZ.t;
  TransformFound : bool;
  call : Request -> option (list PointXYZ.t);
  store_survives : Z -> list PointXYZ.t -> nat -> bool
}.

(** The members of [tfPointCloud] that the callbacks use. *)
Record t := mk {
  counter : Z;
  load_transform : bool;
  input_folder : string;
  sensor_base_link_trans : list (list float);
  static_front_threshold : float;
  previous_cloud : list PointXYZ.t;
  previous_dynamic : list PointXYZ.t;
  request : Request
}.

Section Node.

Context {env : ops}.

(** The entry [(i, j)] of a matrix of doubles. *)
Definition entry (m : list (list R)) (i j : nat) : R :=
  nth j (nth i m []) 0.

(** The sixteen assignments to [sensor_base_link_trans]. *)
Definition to_Matrix4f (m : list (list R)) : list (list float) :=
  map (fun i => map (fun j => to_float (entry m i j)) [0; 1; 2; 3]%nat)
      [0; 1; 2; 3]%nat.

(** The first branch of [preprocessing]: the transform between the sensor
    and the base link, read from the file of the input folder. *)
Definition read_sensor_to_base_link (folder : string) : list (list float) :=
  let sensor_to_base_link_trans :=
    match lines_of_file (folder ++ "/params/sensor_to_base_link.csv") with
    | Some lines => fromVectorQT (read_lines atof lines indeterminate_trans)
    | None => indeterminate_isometry
    end in
  to_Matrix4f sensor_to_base_link_trans.

Definition preprocessing (self : t) (cloud : list PointXYZ.t)
    (static_indices dynamic_indices : list Z)
  : t * list PointXYZ.t * list Z * list Z :=
  let self :=
    if negb (load_transform self) then
      mk (counter self) true (input_folder self)
        (read_sensor_to_base_link (input_folder self))
        (static_front_threshold self) (previous_cloud self)
        (previous_dynamic self) (request self)
    else self in
  let cloud_nan := remove_infinite cloud in
  let cloud_processed :=
    transformPointCloud cloud_nan (sensor_base_link_trans self) in
  let flags :=
    is_ground (store_survives (counter self) cloud_processed)
      (static_front_threshold self) cloud_processed in
  match push_indices flags 0 static_indices dynamic_indices with
  | (static_indices, dynamic_indices) =>
      (self, cloud_processed, static_indices, dynamic_indices)
  end.

(** [msgCallback]: the node after the message, and the cloud it publishes on
    [/kinect/depth/static], if any.  A message carries at least the seven
    odometry values that are copied into the request.  The points pushed
    onto [previous_dynamic] are overwritten before they are read. *)
Definition msgCallback (self : t) (sensor_msg : CloudMsg)
  : t * option (list PointXYZ.t) :=
  if negb TransformFound then (self, None)
  else
    match preprocessing self (cloud_msg sensor_msg) [] [] with
    | (self, cloud_processed, static_indices, dynamic_indices) =>
        let static_cloud := copyPointCloud cloud_processed static_indices in
        let dynamic_cloud := copyPointCloud cloud_processed dynamic_indices in
        let previous_dynamic_ :=
          previous_dynamic self ++ previous_cloud self in
        let dynamic_srv :=
          mkRequest dynamic_cloud
            (map (fun i => nth i (msg_odometry sensor_msg) NaN)
                 [0; 1; 2; 3; 4; 5; 6]%nat)
            (counter self) in
        let previous_cloud_ :=
          if (50 <? List.length dynamic_cloud)%nat then
            match call dynamic_srv with
            | Some cloud_static => previous_cloud self ++ cloud_static
            | None => previous_cloud self
            end
          else previous_cloud self in
        let counter_ := int_wrap (counter self + 1) in
        let filtered_msg := previous_cloud_ in
        (mk counter_ (load_transform self) (input_folder self)
           (sensor_base_link_trans self) (static_front_threshold self)
           static_cloud dynamic_cloud dynamic_srv,
         Some filtered_msg)
    end.

(** The node after a sequence of messages, with the clouds it published. *)
Fixpoint msgCallbacks (self : t) (msgs : list CloudMsg)
  : t * list (list PointXYZ.t) :=
  match msgs with
  | [] => (self, [])
  | m :: msgs' =>
      match msgCallback self m with
      | (self', published) =>
          match msgCallbacks self' msgs' with
          | (self'', rest) =>
              (self'',
               match published with
               | Some c => c :: rest
               | None => rest
               end)
          end
      end
  end.

(** The matrix that the next [preprocessing] works with: the stored one
    once the transform has been loaded, the one read from the file before. *)
Definition matrix_in_use (self : t) : list (list float) :=
  if load_transform self then sensor_base_link_trans self
  else read_sensor_to_base_link (input_folder self).

(** The cloud in the frame of the base link, and its two parts. *)
Definition processed (self : t) (cloud : list PointXYZ.t)
  : list PointXYZ.t :=
  transformPointCloud (remove_infinite cloud) (matrix_in_use self).

(** The flags that [preprocessing] ends up with for the cloud. *)
Definition ground_flags (self : t) (cloud : list PointXYZ.t) : list bool :=
  is_ground (store_survives (counter self) (processed self cloud))
    (static_front_threshold self) (processed self cloud).

(** The points whose flag is set, and the others. *)
Definition static_points (self : t) (cloud : list PointXYZ.t)
  : list PointXYZ.t :=
  map fst (filter snd (combine (processed self cloud)
                         (ground_flags self cloud))).

Definition dynamic_points (self : t) (cloud : list PointXYZ.t)
  : list PointXYZ.t :=
  map fst (filter (fun e => negb (snd e))
             (combine (processed self cloud) (ground_flags self cloud))).

(** No store into [is_ground] is undone while the cloud is processed. *)
Definition no_store_lost (self : t) (cloud : list PointXYZ.t) : Prop :=
  forall i : nat,
    (i < List.length (processed self cloud))%nat ->
    store_survives (counter self) (processed self cloud) i = true.

(** The request that [msgCallback] prepares for a message. *)
Definition request_for (self : t) (sensor_msg : CloudMsg) : Request :=
  mkRequest (dynamic_points self (cloud_msg sensor_msg))
    (map (fun i => nth i (msg_odometry sensor_msg) NaN)
       [0; 1; 2; 3; 4; 5; 6]%nat)
    (counter self).

(** The points that the service adds to the published cloud. *)
Definition added_by_service (self : t) (sensor_msg : CloudMsg)
  : list PointXYZ.t :=
  if (50 <? List.length (dynamic_points self (cloud_msg sensor_msg)))%nat
  then match call (request_for self sensor_msg) with
       | Some cloud_static => cloud_static
       | None => []
       end
  else [].

End Node.

End tfPointCloud.

(** A text without a comma. *)
Fixpoint comma_free (s : string) : bool :=
  match s with
  | EmptyString => true
  | String c s' => negb (Ascii.eqb c ","%char) && comma_free s'
  end.

(** ** A concrete node

    Stand-ins for the surroundings of [tfPointCloud], to run it on concrete
    messages: no file, the identity as transform, a service that finds
    every point static, and threads that undo no store.  [racy] is the same
    with the store at position 0 undone. *)

Module NodeBench.

Definition identity4 : list (list R) :=
  [[1; 0; 0; 0]; [0; 1; 0; 0]; [0; 0; 1; 0]; [0; 0; 0; 1]].

Definition surroundings (found : bool) : tfPointCloud.ops :=
  {| tfPointCloud.lines_of_file := fun _ => None;
     tfPointCloud.atof := fun _ => 0;
     tfPointCloud.fromVectorQT := fun _ => identity4;
     tfPointCloud.to_float := Finite;
     tfPointCloud.indeterminate_trans := [];
     tfPointCloud.indeterminate_isometry := identity4;
     tfPointCloud.transformPointCloud := fun cloud _ => cloud;
     tfPointCloud.TransformFound := found;
     tfPointCloud.call := fun r => Some (tfPointCloud.cloud r);
     tfPointCloud.store_survives := fun _ _ _ => true |}.

Definition racy : tfPointCloud.ops :=
  {| tfPointCloud.lines_of_file := fun _ => None;
     tfPointCloud.atof := fun _ => 0;
     tfPointCloud.fromVectorQT := fun _ => identity4;
     tfPointCloud.to_float := Finite;
     tfPointCloud.indeterminate_trans := [];
     tfPointCloud.indeterminate_isometry := identity4;
     tfPointCloud.transformPointCloud := fun cloud _ => cloud;
     tfPointCloud.TransformFound := true;
     tfPointCloud.call := fun r => Some (tfPointCloud.cloud r);
     tfPointCloud.store_survives := fun _ _ i => negb (i =? 0)%nat |}.

Definition point (x y z : R) : PointXYZ.t :=
  PointXYZ.mk (Finite x) (Finite y) (Finite z).

(** Three points: one on the ground, one above it, one without a reading. *)
Definition scan : list PointXYZ.t :=
  [point 1 0 0.01; point 1 0 0.5; PointXYZ.mk NaN NaN NaN].

Definition message : tfPointCloud.CloudMsg :=
  tfPointCloud.mkCloudMsg scan (repeat (Finite 0) 7).

(** A node that has processed no message yet. *)
Definition node : tfPointCloud.t :=
  tfPointCloud.mk 0 false "data" [] (Finite 3) [] []
    (tfPointCloud.mkRequest [] (repeat (Finite 0) 7) 0).

(** A scan with 51 points above the ground and one on it, its message, and
    a node that kept one static point from the message before. *)
Definition crowd : list PointXYZ.t :=
  repeat (point 1 0 0.5) 51 ++ [point 1 0 0.01].

Definition crowded : tfPointCloud.CloudMsg :=
  tfPointCloud.mkCloudMsg crowd (repeat (Finite 0) 7).

Definition busy : tfPointCloud.t :=
  tfPointCloud.mk 1 true "data" [] (Finite 3) [point 2 0 0.01] []
    (tfPointCloud.mkRequest [] (repeat (Finite 0) 7) 0).

End NodeBench.

(** ** Properties *)

Unset Implicit Arguments.

(** *** Speeds and clamping over the reals *)

Lemma hypot_nonneg a b : 0 <= hypot a b.
Proof. apply sqrt_pos. Qed.

Lemma hypot_sqr a b : hypot a b * hypot a b = a * a + b * b.
Proof. apply sqrt_sqrt. nra. Qed.

Lemma hypot_scale k a b : 0 <= k -> hypot (k * a) (k * b) = k * hypot a b.
Proof.
  intros Hk. unfold hypot.
  replace (k * a * (k * a) + k * b * (k * b))
    with (k * k * (a * a + b * b)) by ring.
  rewrite sqrt_mult_alt by nra. now rewrite sqrt_square.
Qed.

Lemma hypot_0_r a : hypot a 0 = Rabs a.
Proof.
  unfold hypot. replace (a * a + 0 * 0) with (Rsqr a) by (unfold Rsqr; ring).
  apply sqrt_Rsqr_abs.
Qed.

Lemma hypot_eq_0 a b : hypot a b = 0 -> a = 0 /\ b = 0.
Proof.
  intros H. pose proof (hypot_sqr a b) as Hs. rewrite H in Hs.
  split; nra.
Qed.

Lemma clamped_linear_scale m x y :
  hypot x y > m -> 0 <= m ->
  clamped_linear m x y = (m / hypot x y * x, m / hypot x y * y).
Proof.
  intros Hgt Hm. unfold clamped_linear.
  destruct (Rgt_dec (hypot x y) m); [| contradiction].
  f_equal; field; lra.
Qed.

Lemma div_nonneg m h : 0 <= m -> 0 < h -> 0 <= m / h.
Proof. intros Hm Hh. now apply Rle_mult_inv_pos. Qed.

Lemma clamped_linear_speed m x y :
  0 <= m -> hypot x y > m ->
  hypot (fst (clamped_linear m x y)) (snd (clamped_linear m x y)) = m.
Proof.
  intros Hm Hgt. rewrite clamped_linear_scale by assumption. cbn [fst snd].
  rewrite hypot_scale by (apply div_nonneg; lra).
  field. lra.
Qed.

Lemma clamped_linear_id m x y :
  hypot x y <= m -> clamped_linear m x y = (x, y).
Proof.
  intros Hle. unfold clamped_linear.
  destruct (Rgt_dec (hypot x y) m); [lra | reflexivity].
Qed.

Lemma clamped_linear_bound m x y :
  0 <= m ->
  hypot (fst (clamped_linear m x y)) (snd (clamped_linear m x y)) <= m.
Proof.
  intros Hm. destruct (Rgt_dec (hypot x y) m) as [Hgt | Hle].
  - right. now apply clamped_linear_speed.
  - rewrite clamped_linear_id by lra. cbn [fst snd]. lra.
Qed.

Lemma clamped_linear_direction m x y :
  0 < m -> hypot x y <> 0 ->
  let v := clamped_linear m x y in
  hypot (fst v) (snd v) <> 0
  /\ fst v / hypot (fst v) (snd v) = x / hypot x y
  /\ snd v / hypot (fst v) (snd v) = y / hypot x y.
Proof.
  intros Hm Hnz v. subst v.
  destruct (Rgt_dec (hypot x y) m) as [Hgt | Hle].
  - rewrite (clamped_linear_speed m x y) by lra.
    rewrite clamped_linear_scale by lra. cbn [fst snd].
    repeat split; try lra; field; lra.
  - rewrite clamped_linear_id by lra. cbn [fst snd]. auto.
Qed.

Lemma clamped_angular_bound m w : 0 <= m -> Rabs (clamped_angular m w) <= m.
Proof.
  intros Hm. unfold clamped_angular, copysign.
  destruct (Rgt_dec (Rabs w) m) as [Hgt | Hle]; [| lra].
  destruct (Rlt_dec w 0);
    rewrite ?Rabs_Ropp, Rabs_Rabsolu, (Rabs_pos_eq m); lra.
Qed.

Lemma clamped_angular_id m w : Rabs w <= m -> clamped_angular m w = w.
Proof.
  intros Hle. unfold clamped_angular.
  destruct (Rgt_dec (Rabs w) m); [lra | reflexivity].
Qed.

Lemma clamped_angular_sign m w :
  0 < m ->
  (0 < w -> 0 < clamped_angular m w) /\ (w < 0 -> clamped_angular m w < 0).
Proof.
  intros Hm. unfold clamped_angular, copysign.
  destruct (Rgt_dec (Rabs w) m) as [Hgt | Hle]; [| tauto].
  rewrite (Rabs_pos_eq m) by lra.
  destruct (Rlt_dec w 0); split; lra.
Qed.

Lemma clamped_linear_example : clamped_linear 0.5 1.2 0 = (0.5, 0).
Proof.
  assert (Hh : hypot 1.2 0 = 1.2).
  { rewrite hypot_0_r. apply Rabs_pos_eq. lra. }
  rewrite clamped_linear_scale by lra. rewrite Hh. f_equal; lra.
Qed.

Section Properties.

Context {O MP C : Type}.
Context {observer : SafetyObserver.ops O}.
Context {planner : MotionPlanner.ops MP}.
Context {controller : Controller.ops C}.
Context {mathops : math.ops}.
Context {tfl : TransformListener.ops}.

Local Notation "'St'" := (State O MP C).

(** Running the monad: unfold its operations and the calls on the
    collaborators, then let the traces and states compute. *)
Ltac run_M :=
  repeat
    (unfold bind, ret, get, modify, emit, arith, reading, writing,
       motion_planner_computeReference, controller_computeCommand,
       controller_reset, motion_planner_reset, motion_planner_update,
       replanning_guard_clear, trace, outcome in *);
  cbn [fst snd app negb].

Lemma vetoed_existsb (st : St) :
  vetoed st <->
  existsb (fun o => negb (SafetyObserver.safe o)) (safety_observers_ st) = true.
Proof.
  unfold vetoed. rewrite existsb_exists.
  split; intros [o [Hin Ho]]; exists o; split; trivial.
  - now rewrite Ho.
  - now apply negb_true_iff.
Qed.

Lemma not_vetoed_existsb (st : St) :
  ~ vetoed st <->
  existsb (fun o => negb (SafetyObserver.safe o)) (safety_observers_ st)
  = false.
Proof.
  rewrite vetoed_existsb. apply not_true_iff_false.
Qed.

(** C1: when some safety observer reports unsafe, the control tick writes
    zero to the three planar components of the command, returns true and
    leaves the whole planner state (goal, motion planner, controller,
    replanning guard) as it was; it calls no collaborator. *)
Theorem computeVelocityCommands_veto (st : St) (cmd : Twist.t) :
  vetoed st ->
  exists cmd',
    computeVelocityCommands cmd st = ([Lock; Unlock], Some ((true, cmd'), st))
    /\ planar cmd' = (0, 0, 0)
    /\ Vector3.z (Twist.linear cmd') = Vector3.z (Twist.linear cmd)
    /\ Vector3.x (Twist.angular cmd') = Vector3.x (Twist.angular cmd)
    /\ Vector3.y (Twist.angular cmd') = Vector3.y (Twist.angular cmd).
Proof.
  intros Hv. apply vetoed_existsb in Hv.
  exists (set_angular_z 0 (set_linear_y 0 (set_linear_x 0 cmd))).
  split; [| repeat split].
  unfold computeVelocityCommands, computeVelocityCommands_locked, bind, get,
    emit, ret.
  now rewrite Hv.
Qed.

(** *** Plan intake *)

Lemma setPlan_accepted (st : St) (w : PoseStamped.t)
    (ws : list PoseStamped.t) :
  ReplanningGuard.replanningFlag (replanning_guard st) = true ->
  setPlan (w :: ws) st =
    if newGoal st (PoseStamped.pose (last (w :: ws) w))
    then (new_goal_trace,
          Some (true, after_new_goal (w :: ws) (last (w :: ws) w) st))
    else (update_trace, Some (true, after_update (w :: ws) st)).
Proof.
  intros Hflag.
  unfold setPlan. run_M. rewrite Hflag. cbn [negb].
  destruct (newGoal st (PoseStamped.pose (last (w :: ws) w))); reflexivity.
Qed.

Lemma Rgtb_true (a b : R) : Rgtb a b = true <-> a > b.
Proof.
  unfold Rgtb. destruct (Rgt_dec a b); split; intros; trivial;
    [discriminate | contradiction].
Qed.

Lemma Rleb_true (a b : R) : Rleb a b = true <-> a <= b.
Proof.
  unfold Rleb. destruct (Rle_dec a b); split; intros; trivial;
    [discriminate | contradiction].
Qed.

Lemma newGoal_differs (st : St) (goal pose : Pose.t) :
  current_goal_ st = Some goal ->
  newGoal st pose = true <-> differs goal pose.
Proof.
  intros Hg. unfold newGoal, differs. rewrite Hg.
  now rewrite orb_true_iff, !Rgtb_true.
Qed.

(** C7: [setPlan] on an empty waypoint sequence returns false, touches no
    state and calls nothing. *)
Theorem setPlan_empty (st : St) :
  setPlan [] st = ([], Some (false, st)).
Proof. reflexivity. Qed.

(** C8: when the replanning guard reports that no replanning is owed,
    [setPlan] on a non-empty waypoint sequence returns true, touches no
    state and calls nothing. *)
Theorem setPlan_not_owed (st : St) (w : PoseStamped.t)
    (ws : list PoseStamped.t) :
  ReplanningGuard.replanningFlag (replanning_guard st) = false ->
  setPlan (w :: ws) st = ([], Some (true, st)).
Proof.
  intros Hflag. unfold setPlan, bind, get, ret. now rewrite Hflag.
Qed.

(** C6: when replanning is owed and a goal is active, [setPlan] on a
    non-empty waypoint sequence returns true; it replaces the goal by the
    terminal pose and resets the controller and the motion planner exactly
    when the terminal pose differs from the goal by more than 1e-8 in
    position or in heading: afterwards the goal is the terminal pose, the
    controller is the reset one and the motion planner the reset one.
    Otherwise it only calls [update] on the motion planner: the motion
    planner is the updated one and the goal and the controller are as they
    were. *)
Theorem setPlan_new_goal_iff_differs (st : St) (goal : Pose.t)
    (w : PoseStamped.t) (ws : list PoseStamped.t) :
  ReplanningGuard.replanningFlag (replanning_guard st) = true ->
  current_goal_ st = Some goal ->
  let waypoints := w :: ws in
  let back := last waypoints w in
  (differs goal (PoseStamped.pose back) ->
     setPlan waypoints st =
       (new_goal_trace, Some (true, after_new_goal waypoints back st))
     /\ current_goal_ (after_new_goal waypoints back st)
        = Some (PoseStamped.pose back)
     /\ controller_ (after_new_goal waypoints back st)
        = Controller.reset (stamp_of st) (controller_ st)
     /\ motion_planner_ (after_new_goal waypoints back st)
        = MotionPlanner.reset waypoints (stamp_of st) (motion_planner_ st))
  /\ (~ differs goal (PoseStamped.pose back) ->
      setPlan waypoints st =
        (update_trace, Some (true, after_update waypoints st))
      /\ current_goal_ (after_update waypoints st) = Some goal
      /\ controller_ (after_update waypoints st) = controller_ st
      /\ motion_planner_ (after_update waypoints st)
         = MotionPlanner.update waypoints (stamp_of st) (motion_planner_ st))
  /\ (In (Call controller_reset_) (trace (setPlan waypoints st))
      <-> differs goal (PoseStamped.pose back))
  /\ (In (Call motion_planner_reset_) (trace (setPlan waypoints st))
      <-> differs goal (PoseStamped.pose back))
  /\ (In (Write current_goal) (trace (setPlan waypoints st))
      <-> differs goal (PoseStamped.pose back))
  /\ (In (Call motion_planner_update_) (trace (setPlan waypoints st))
      <-> ~ differs goal (PoseStamped.pose back)).
Proof.
  intros Hflag Hgoal waypoints back.
  pose proof (setPlan_accepted st w ws Hflag) as Hrun.
  pose proof (newGoal_differs st goal (PoseStamped.pose back) Hgoal) as Hnew.
  fold waypoints in Hrun. fold back in Hrun.
  destruct (newGoal st (PoseStamped.pose back)) eqn:Hb; rewrite Hrun.
  - assert (Hd : differs goal (PoseStamped.pose back)) by now apply Hnew.
    split; [intros _; repeat split |].
    split; [intros Hn; contradiction |].
    unfold trace, new_goal_trace; cbn [fst In].
    intuition congruence.
  - assert (Hd : ~ differs goal (PoseStamped.pose back)).
    { intros Hd. apply Hnew in Hd. discriminate. }
    split; [intros; contradiction |].
    split; [intros _; repeat split; assumption |].
    unfold trace, update_trace; cbn [fst In].
    intuition congruence.
Qed.

(** C10: when replanning is owed and no goal is active, [newGoal] answers
    true for every pose, and [setPlan] on a non-empty waypoint sequence
    takes the new-goal branch: it sets the goal to the terminal pose,
    resets the controller and the motion planner, and never calls
    [update]. *)
Theorem setPlan_without_goal (st : St) (w : PoseStamped.t)
    (ws : list PoseStamped.t) :
  ReplanningGuard.replanningFlag (replanning_guard st) = true ->
  current_goal_ st = None ->
  let waypoints := w :: ws in
  let back := last waypoints w in
  (forall pose, newGoal st pose = true)
  /\ setPlan waypoints st =
       (new_goal_trace, Some (true, after_new_goal waypoints back st))
  /\ current_goal_ (after_new_goal waypoints back st)
     = Some (PoseStamped.pose back)
  /\ controller_ (after_new_goal waypoints back st)
     = Controller.reset (stamp_of st) (controller_ st)
  /\ motion_planner_ (after_new_goal waypoints back st)
     = MotionPlanner.reset waypoints (stamp_of st) (motion_planner_ st)
  /\ ~ In (Call motion_planner_update_) (trace (setPlan waypoints st)).
Proof.
  intros Hflag Hgoal waypoints back.
  assert (Hnew : forall pose, newGoal st pose = true).
  { intros pose. unfold newGoal. now rewrite Hgoal. }
  pose proof (setPlan_accepted st w ws Hflag) as Hrun.
  fold waypoints in Hrun. fold back in Hrun. rewrite Hnew in Hrun.
  rewrite Hrun. repeat split; trivial.
  unfold trace, new_goal_trace; cbn [fst In].
  intros H. repeat destruct H as [H | H]; try discriminate; contradiction.
Qed.

(** *** Goal tracking *)

Lemma isGoalReached_idle (st : St) :
  current_goal_ st = None ->
  isGoalReached st = ([Read current_goal], Some (false, st)).
Proof.
  intros Hg. unfold isGoalReached. run_M. now rewrite Hg.
Qed.

Lemma isGoalReached_reached (st : St) (goal : Pose.t) :
  current_goal_ st = Some goal ->
  within_tolerance st goal ->
  isGoalReached st =
    ([Read current_goal; Read robot_pose; Write current_goal;
      Call guard_clear_],
     Some (true, after_reached st)).
Proof.
  intros Hg [Hl Ha]. apply Rleb_true in Hl. apply Rleb_true in Ha.
  unfold isGoalReached. run_M. rewrite Hg, Hl, Ha. reflexivity.
Qed.

Lemma isGoalReached_not_reached (st : St) (goal : Pose.t) :
  current_goal_ st = Some goal ->
  ~ within_tolerance st goal ->
  isGoalReached st =
    ([Read current_goal; Read robot_pose], Some (false, st)).
Proof.
  intros Hg Hn. unfold isGoalReached. run_M. rewrite Hg.
  destruct (Rleb _ _) eqn:Hl; [| reflexivity].
  destruct (Rleb (math.angularDistanceYaw _ _) _) eqn:Ha; [| reflexivity].
  exfalso. apply Hn. split; now apply Rleb_true.
Qed.

Lemma polls_idle (n : nat) (st : St) :
  current_goal_ st = None ->
  outcome (polls n st) = Some (repeat false n, st).
Proof.
  intros Hg. induction n as [| n IH]; [reflexivity |].
  cbn [polls repeat]. unfold bind at 1.
  rewrite (isGoalReached_idle st Hg).
  unfold bind at 1. unfold outcome in IH.
  destruct (polls n st) as [tr r]. cbn [snd] in IH. subst r.
  reflexivity.
Qed.

(** C5: [isGoalReached] returns false when no goal is active; when a goal
    is active and the robot pose is within the linear and the angular
    tolerance of it, it clears the goal, calls [clear] on the replanning
    guard, which leaves the flag not owed, and returns true; from then on
    every further call returns false and changes nothing. *)
Theorem isGoalReached_true_once (st : St) :
  (current_goal_ st = None -> outcome (isGoalReached st) = Some (false, st))
  /\ (forall goal,
        current_goal_ st = Some goal ->
        within_tolerance st goal ->
        outcome (isGoalReached st) = Some (true, after_reached st)
        /\ current_goal_ (after_reached st) = None
        /\ replanning_guard (after_reached st)
           = ReplanningGuard.clear (replanning_guard st)
        /\ ReplanningGuard.replanningFlag
             (replanning_guard (after_reached st)) = false
        /\ forall n,
             outcome (polls n (after_reached st))
             = Some (repeat false n, after_reached st)).
Proof.
  split.
  - intros Hg. now rewrite (isGoalReached_idle st Hg).
  - intros goal Hg Hw. rewrite (isGoalReached_reached st goal Hg Hw).
    repeat split. intros n. now apply polls_idle.
Qed.

(** *** The control tick *)

Lemma computeVelocityCommands_deviation_run (st : St) (cmd : Twist.t)
    (ref_pose : Pose.t) (ref_twist : Twist.t) (mp : MP) :
  ~ vetoed st ->
  MotionPlanner.computeReference (stamp_of st) (motion_planner_ st)
    = (ref_pose, ref_twist, mp) ->
  deviates st ref_pose ->
  computeVelocityCommands cmd st =
    (deviation_trace (ReplanningGuard.enabled (replanning_guard st)),
     Some ((false, cmd), after_deviation mp st)).
Proof.
  intros Hv Href Hdev. apply not_vetoed_existsb in Hv.
  assert (Hb :
    Rgtb (math.linearDistance2D (PoseStamped.pose (robot_pose_ st)) ref_pose)
         (max_safe_lin_displacement (params_ st))
    || Rgtb (math.angularDistanceYaw
               (PoseStamped.pose (robot_pose_ st)) ref_pose)
            (max_safe_ang_displacement (params_ st)) = true).
  { apply orb_true_iff. now rewrite !Rgtb_true. }
  unfold computeVelocityCommands, computeVelocityCommands_locked. run_M.
  rewrite Hv, Href. cbn. rewrite Hb.
  unfold after_deviation, deviation_trace.
  destruct (ReplanningGuard.enabled (replanning_guard st)); reflexivity.
Qed.


(** *** Locking *)

Lemma computeVelocityCommands_disciplined (st : St) (cmd : Twist.t) :
  disciplined false (trace (computeVelocityCommands cmd st)) = true
  /\ unguarded false (trace (computeVelocityCommands cmd st)) = []
  /\ blocked_under_lock false (trace (computeVelocityCommands cmd st)) = []
  /\ hd_error (trace (computeVelocityCommands cmd st)) = Some Lock.
Proof.
  unfold computeVelocityCommands, computeVelocityCommands_locked. run_M.
  destruct (existsb _ _); [repeat split |].
  destruct (MotionPlanner.computeReference _ _) as [[ref_pose ref_twist] mp].
  run_M. cbn.
  destruct (_ || _).
  - destruct (ReplanningGuard.enabled _); repeat split.
  - destruct (Controller.computeCommand _ _ _ _ _ _) as [map_cmd c].
    cbn. destruct (safeVelocityCommands _ _); repeat split.
Qed.

Lemma odomCallback_trace (st : St) (odom : Odometry.t) :
  trace (odomCallback odom st) =
    [Lock; Call waitForTransform_; Call transformPose_]
    ++ match
         TransformListener.transformPose (global_frame_id st)
           (PoseStamped.mk (Odometry.header odom) (Odometry.pose odom))
       with
       | Some _ => [Write robot_pose; Read robot_pose; Write robot_twist]
       | None => []
       end
    ++ [Unlock].
Proof.
  unfold odomCallback, odomCallback_locked. run_M.
  destruct (TransformListener.transformPose _ _); reflexivity.
Qed.

Lemma isGoalReached_undisciplined (st : St) :
  disciplined false (trace (isGoalReached st)) = false
  /\ hd_error (unguarded false (trace (isGoalReached st)))
     = Some (Read current_goal).
Proof.
  unfold isGoalReached. run_M.
  destruct (current_goal_ st); [| split; reflexivity].
  destruct (_ && _); split; reflexivity.
Qed.

Lemma setPlan_undisciplined (st : St) (w : PoseStamped.t)
    (ws : list PoseStamped.t) :
  ReplanningGuard.replanningFlag (replanning_guard st) = true ->
  disciplined false (trace (setPlan (w :: ws) st)) = false
  /\ hd_error (unguarded false (trace (setPlan (w :: ws) st)))
     = Some (Read robot_pose).
Proof.
  intros Hflag. rewrite (setPlan_accepted st w ws Hflag).
  destruct (newGoal _ _); split; reflexivity.
Qed.

(** C9, amended: [computeVelocityCommands] and [odomCallback] take the
    state lock first and make every read and write of [robot_pose_],
    [robot_twist_] and the goal with the lock held;
    [computeVelocityCommands] makes no blocking call while it holds the
    lock, and [odomCallback] makes exactly one, its bounded wait for the
    frame transform. *)
Theorem state_lock_held_by_tick_and_odometry (st : St) (cmd : Twist.t)
    (odom : Odometry.t) :
  hd_error (trace (computeVelocityCommands cmd st)) = Some Lock
  /\ unguarded false (trace (computeVelocityCommands cmd st)) = []
  /\ blocked_under_lock false (trace (computeVelocityCommands cmd st)) = []
  /\ disciplined false (trace (computeVelocityCommands cmd st)) = true
  /\ hd_error (trace (odomCallback odom st)) = Some Lock
  /\ unguarded false (trace (odomCallback odom st)) = []
  /\ blocked_under_lock false (trace (odomCallback odom st))
     = [waitForTransform_].
Proof.
  destruct (computeVelocityCommands_disciplined st cmd) as (Hd & Hu & Hb & Hh).
  rewrite odomCallback_trace.
  repeat split; trivial;
    destruct (TransformListener.transformPose _ _); reflexivity.
Qed.

(** *** Twist shaping *)

Lemma safeVelocityCommands_components (st : St) (twist : Twist.t) :
  0 <= max_safe_lin_velocity (params_ st) ->
  let v :=
    clamped_linear (max_safe_lin_velocity (params_ st))
      (Vector3.x (Twist.linear twist)) (Vector3.y (Twist.linear twist)) in
  let w :=
    clamped_angular (max_safe_ang_velocity (params_ st))
      (Vector3.z (Twist.angular twist)) in
  safeVelocityCommands st twist =
    Some (set_angular_z w (set_linear_y (snd v) (set_linear_x (fst v) twist))).
Proof.
  intros Hm v w. subst v w.
  unfold safeVelocityCommands, clamped_linear, clamped_angular, fdiv.
  destruct twist as [[lx ly lz] [ax ay az]]. cbn [Twist.linear Twist.angular
    Vector3.x Vector3.y Vector3.z].
  destruct (Rgt_dec (hypot lx ly) _) as [Hgt | Hle].
  - destruct (Req_dec_T (hypot lx ly) 0) as [Hz | Hnz]; [lra |].
    destruct (Rgt_dec (Rabs az) _); reflexivity.
  - destruct (Rgt_dec (Rabs az) _); reflexivity.
Qed.

(** C3, amended: under non-negative velocity bounds [safeVelocityCommands]
    is defined on every twist, with no division by zero; a zero linear
    (angular) velocity stays zero; the linear speed of the result is at
    most the linear bound and its angular speed at most the angular bound;
    a twist within both bounds is returned as it is; under positive bounds
    the unit vector of a non-zero linear velocity and the sign of the
    angular velocity are kept; and linear (1.2, 0.0) under the bound 0.5
    becomes (0.5, 0.0). *)
Theorem safeVelocityCommands_clamps (st : St) (twist : Twist.t) :
  0 <= max_safe_lin_velocity (params_ st) ->
  0 <= max_safe_ang_velocity (params_ st) ->
  exists safe_twist,
    safeVelocityCommands st twist = Some safe_twist
    /\ (lin_speed twist = 0 ->
        Vector3.x (Twist.linear safe_twist) = 0
        /\ Vector3.y (Twist.linear safe_twist) = 0)
    /\ (Vector3.z (Twist.angular twist) = 0 ->
        Vector3.z (Twist.angular safe_twist) = 0)
    /\ lin_speed safe_twist <= max_safe_lin_velocity (params_ st)
    /\ ang_speed safe_twist <= max_safe_ang_velocity (params_ st)
    /\ (lin_speed twist <= max_safe_lin_velocity (params_ st) ->
        ang_speed twist <= max_safe_ang_velocity (params_ st) ->
        safe_twist = twist)
    /\ (0 < max_safe_lin_velocity (params_ st) ->
        lin_speed twist <> 0 ->
        lin_speed safe_twist <> 0
        /\ Vector3.x (Twist.linear safe_twist) / lin_speed safe_twist
           = Vector3.x (Twist.linear twist) / lin_speed twist
        /\ Vector3.y (Twist.linear safe_twist) / lin_speed safe_twist
           = Vector3.y (Twist.linear twist) / lin_speed twist)
    /\ (0 < max_safe_ang_velocity (params_ st) ->
        (0 < Vector3.z (Twist.angular twist) ->
         0 < Vector3.z (Twist.angular safe_twist))
        /\ (Vector3.z (Twist.angular twist) < 0 ->
            Vector3.z (Twist.angular safe_twist) < 0))
    /\ (max_safe_lin_velocity (params_ st) = 0.5 ->
        Vector3.x (Twist.linear twist) = 1.2 ->
        Vector3.y (Twist.linear twist) = 0 ->
        Vector3.x (Twist.linear safe_twist) = 0.5
        /\ Vector3.y (Twist.linear safe_twist) = 0).
Proof.
  intros Hml Hma.
  rewrite (safeVelocityCommands_components st twist Hml).
  eexists; split; [reflexivity |].
  destruct twist as [[lx ly lz] [ax ay az]].
  unfold lin_speed, ang_speed.
  cbn [set_angular_z set_linear_x set_linear_y Twist.linear Twist.angular
       Vector3.x Vector3.y Vector3.z].
  set (ml := max_safe_lin_velocity (params_ st)) in *.
  set (ma := max_safe_ang_velocity (params_ st)) in *.
  repeat apply conj.
  - intros Hz. rewrite clamped_linear_id by lra.
    now apply hypot_eq_0.
  - intros ->. apply clamped_angular_id. rewrite Rabs_R0. exact Hma.
  - now apply clamped_linear_bound.
  - now apply clamped_angular_bound.
  - intros Hl Ha.
    rewrite (clamped_linear_id ml lx ly Hl), (clamped_angular_id ma az Ha).
    reflexivity.
  - intros Hpos Hnz. now apply clamped_linear_direction.
  - intros Hpos. now apply clamped_angular_sign.
  - intros -> -> ->. now rewrite clamped_linear_example.
Qed.

(** *** Frame conversion *)

Lemma twistToRobotFrame_planar (st : St) (map_twist robot_twist : Twist.t) :
  let yaw := tf.getYaw (Pose.orientation (PoseStamped.pose (robot_pose_ st))) in
  planar (twistToRobotFrame st map_twist robot_twist) =
    (cos yaw * Vector3.x (Twist.linear map_twist)
     + sin yaw * Vector3.y (Twist.linear map_twist),
     - sin yaw * Vector3.x (Twist.linear map_twist)
     + cos yaw * Vector3.y (Twist.linear map_twist),
     Vector3.z (Twist.angular map_twist)).
Proof.
  unfold twistToRobotFrame, planar. cbn. rewrite cos_neg, sin_neg.
  f_equal. f_equal. ring.
Qed.

Lemma twistToGlobalFrame_planar (st : St) (robot_twist map_twist : Twist.t) :
  let yaw := tf.getYaw (Pose.orientation (PoseStamped.pose (robot_pose_ st))) in
  planar (twistToGlobalFrame st robot_twist map_twist) =
    (cos yaw * Vector3.x (Twist.linear robot_twist)
     - sin yaw * Vector3.y (Twist.linear robot_twist),
     sin yaw * Vector3.x (Twist.linear robot_twist)
     + sin yaw * Vector3.y (Twist.linear robot_twist),
     Vector3.z (Twist.angular robot_twist)).
Proof. reflexivity. Qed.

(** [twistToRobotFrame] is a rotation: it keeps the linear speed. *)
Lemma twistToRobotFrame_speed (st : St) (map_twist robot_twist : Twist.t) :
  lin_speed (twistToRobotFrame st map_twist robot_twist)
  = lin_speed map_twist.
Proof.
  unfold twistToRobotFrame, lin_speed, hypot. cbn.
  rewrite cos_neg, sin_neg. f_equal.
  set (yaw := tf.getYaw _).
  set (x := Vector3.x _). set (y := Vector3.y _).
  transitivity ((Rsqr (sin yaw) + Rsqr (cos yaw)) * (x * x + y * y)).
  - unfold Rsqr. ring.
  - rewrite sin2_cos2. ring.
Qed.

End Properties.

(** ** Further properties of the planner *)

Section MoreProperties.

Context {O MP C : Type}.
Context {observer : SafetyObserver.ops O}.
Context {planner : MotionPlanner.ops MP}.
Context {controller : Controller.ops C}.
Context {mathops : math.ops}.
Context {tfl : TransformListener.ops}.

Local Notation "'St'" := (State O MP C).

Ltac run_M :=
  repeat
    (unfold bind, ret, get, modify, emit, arith, reading, writing,
       motion_planner_computeReference, controller_computeCommand,
       controller_reset, motion_planner_reset, motion_planner_update,
       replanning_guard_clear, trace, outcome in *);
  cbn [fst snd app negb].

Lemma deviates_orb (st : St) (ref_pose : Pose.t) :
  deviates st ref_pose <->
  Rgtb (math.linearDistance2D (PoseStamped.pose (robot_pose_ st)) ref_pose)
       (max_safe_lin_displacement (params_ st))
  || Rgtb (math.angularDistanceYaw (PoseStamped.pose (robot_pose_ st)) ref_pose)
          (max_safe_ang_displacement (params_ st)) = true.
Proof. unfold deviates. now rewrite orb_true_iff, !Rgtb_true. Qed.

Lemma computeVelocityCommands_tracking_run (st : St) (cmd : Twist.t)
    (ref_pose : Pose.t) (ref_twist : Twist.t) (mp : MP)
    (map_cmd : Twist.t) (c : C) (safe_cmd : Twist.t) :
  ~ vetoed st ->
  MotionPlanner.computeReference (stamp_of st) (motion_planner_ st)
    = (ref_pose, ref_twist, mp) ->
  ~ deviates st ref_pose ->
  Controller.computeCommand (stamp_of st) (PoseStamped.pose (robot_pose_ st))
    ref_pose (TwistStamped.twist (robot_twist_ st)) ref_twist (controller_ st)
    = (map_cmd, c) ->
  safeVelocityCommands st (twistToRobotFrame st map_cmd Twist_default)
    = Some safe_cmd ->
  computeVelocityCommands cmd st
  = (tracking_trace, Some ((true, safe_cmd), after_tracking mp c st)).
Proof.
  intros Hv Href Hdev Hcmd Hsafe. apply not_vetoed_existsb in Hv.
  rewrite deviates_orb in Hdev. apply not_true_is_false in Hdev.
  unfold computeVelocityCommands, computeVelocityCommands_locked. run_M.
  rewrite Hv, Href. cbn. rewrite Hdev.
  cbn. rewrite Hcmd. cbn.
  change (safeVelocityCommands _ _)
    with (safeVelocityCommands st (twistToRobotFrame st map_cmd Twist_default)).
  rewrite Hsafe. reflexivity.
Qed.

(** The four ways a tick can go. *)
Lemma computeVelocityCommands_cases (st : St) (cmd : Twist.t)
    (ref_pose : Pose.t) (ref_twist : Twist.t) (mp : MP)
    (map_cmd : Twist.t) (c : C) :
  MotionPlanner.computeReference (stamp_of st) (motion_planner_ st)
    = (ref_pose, ref_twist, mp) ->
  Controller.computeCommand (stamp_of st) (PoseStamped.pose (robot_pose_ st))
    ref_pose (TwistStamped.twist (robot_twist_ st)) ref_twist (controller_ st)
    = (map_cmd, c) ->
  (vetoed st
   /\ computeVelocityCommands cmd st
      = ([Lock; Unlock], Some ((true, stopped cmd), st)))
  \/ (~ vetoed st /\ deviates st ref_pose
      /\ computeVelocityCommands cmd st
         = (deviation_trace (ReplanningGuard.enabled (replanning_guard st)),
            Some ((false, cmd), after_deviation mp st)))
  \/ (~ vetoed st /\ ~ deviates st ref_pose
      /\ exists safe_cmd,
           safeVelocityCommands st (twistToRobotFrame st map_cmd Twist_default)
           = Some safe_cmd
           /\ computeVelocityCommands cmd st
              = (tracking_trace,
                 Some ((true, safe_cmd), after_tracking mp c st)))
  \/ (~ vetoed st /\ ~ deviates st ref_pose
      /\ safeVelocityCommands st (twistToRobotFrame st map_cmd Twist_default)
         = None
      /\ computeVelocityCommands cmd st = (fault_trace, None)).
Proof.
  intros Href Hcmd.
  destruct (existsb (fun o => negb (SafetyObserver.safe o))
              (safety_observers_ st)) eqn:Hv.
  - left. split; [now apply vetoed_existsb |].
    unfold computeVelocityCommands, computeVelocityCommands_locked. run_M.
    now rewrite Hv.
  - right. apply not_vetoed_existsb in Hv.
    destruct (Rgtb (math.linearDistance2D
                      (PoseStamped.pose (robot_pose_ st)) ref_pose)
                   (max_safe_lin_displacement (params_ st))
              || Rgtb (math.angularDistanceYaw
                         (PoseStamped.pose (robot_pose_ st)) ref_pose)
                      (max_safe_ang_displacement (params_ st))) eqn:Hd.
    + left. apply deviates_orb in Hd. repeat split; trivial.
      exact (computeVelocityCommands_deviation_run st cmd ref_pose ref_twist
               mp Hv Href Hd).
    + right. assert (Hn : ~ deviates st ref_pose).
      { rewrite deviates_orb, Hd. discriminate. }
      destruct (safeVelocityCommands st
                  (twistToRobotFrame st map_cmd Twist_default))
        as [safe_cmd |] eqn:Hs.
      * left. repeat split; trivial. exists safe_cmd. split; [reflexivity |].
        exact (computeVelocityCommands_tracking_run st cmd ref_pose ref_twist
                 mp map_cmd c safe_cmd Hv Href Hn Hcmd Hs).
      * right. repeat split; trivial.
        apply not_vetoed_existsb in Hv.
        unfold computeVelocityCommands, computeVelocityCommands_locked. run_M.
        rewrite Hv, Href. cbn. rewrite Hd. cbn. rewrite Hcmd. cbn.
        change (safeVelocityCommands _ _)
          with (safeVelocityCommands st
                  (twistToRobotFrame st map_cmd Twist_default)).
        now rewrite Hs.
Qed.

Lemma lin_speed_stopped (cmd : Twist.t) : lin_speed (stopped cmd) = 0.
Proof. unfold lin_speed, stopped. cbn. rewrite hypot_0_r. apply Rabs_R0. Qed.

Lemma ang_speed_stopped (cmd : Twist.t) : ang_speed (stopped cmd) = 0.
Proof. unfold ang_speed, stopped. cbn. apply Rabs_R0. Qed.

(** What [safeVelocityCommands] returns is within the bounds. *)
Lemma safeVelocityCommands_bounded (st : St) (twist safe_twist : Twist.t) :
  0 <= max_safe_lin_velocity (params_ st) ->
  0 <= max_safe_ang_velocity (params_ st) ->
  safeVelocityCommands st twist = Some safe_twist ->
  lin_speed safe_twist <= max_safe_lin_velocity (params_ st)
  /\ ang_speed safe_twist <= max_safe_ang_velocity (params_ st).
Proof.
  intros Hl Ha Hrun.
  rewrite (safeVelocityCommands_components st twist Hl) in Hrun.
  injection Hrun as <-.
  destruct twist as [[lx ly lz] [ax ay az]]. unfold lin_speed, ang_speed. cbn.
  split; [now apply clamped_linear_bound | now apply clamped_angular_bound].
Qed.

(** X1: under non-negative velocity bounds, every command that a tick hands
    back with the answer true is within the bounds: its linear speed is at
    most [max_safe_lin_velocity] and its angular speed at most
    [max_safe_ang_velocity], whether the tick was vetoed or followed the
    trajectory. *)
Theorem computeVelocityCommands_command_within_bounds
    (st st' : St) (cmd cmd' : Twist.t) :
  0 <= max_safe_lin_velocity (params_ st) ->
  0 <= max_safe_ang_velocity (params_ st) ->
  outcome (computeVelocityCommands cmd st) = Some ((true, cmd'), st') ->
  lin_speed cmd' <= max_safe_lin_velocity (params_ st)
  /\ ang_speed cmd' <= max_safe_ang_velocity (params_ st).
Proof.
  intros Hl Ha Hrun.
  destruct (MotionPlanner.computeReference (stamp_of st) (motion_planner_ st))
    as [[ref_pose ref_twist] mp] eqn:Href.
  destruct (Controller.computeCommand (stamp_of st)
              (PoseStamped.pose (robot_pose_ st)) ref_pose
              (TwistStamped.twist (robot_twist_ st)) ref_twist (controller_ st))
    as [map_cmd c] eqn:Hcmd.
  destruct (computeVelocityCommands_cases st cmd _ _ _ _ _ Href Hcmd)
    as [[_ H] | [(_ & _ & H) | [(_ & _ & safe & Hs & H) | (_ & _ & _ & H)]]];
    rewrite H in Hrun; cbn in Hrun; try discriminate.
  - injection Hrun as <- _.
    rewrite lin_speed_stopped, ang_speed_stopped. split; assumption.
  - injection Hrun as <- _.
    exact (safeVelocityCommands_bounded st _ _ Hl Ha Hs).
Qed.

(** X2: a tick answers false exactly when no observer vetoes and the robot
    deviates from the reference that the motion planner computes; it then
    hands the command back as it was and leaves no goal. *)
Theorem computeVelocityCommands_false_iff_deviation
    (st st' : St) (cmd cmd' : Twist.t) (b : bool) :
  outcome (computeVelocityCommands cmd st) = Some ((b, cmd'), st') ->
  (b = false <->
   ~ vetoed st
   /\ deviates st
        (fst (fst (MotionPlanner.computeReference (stamp_of st)
                     (motion_planner_ st)))))
  /\ (b = false -> cmd' = cmd /\ current_goal_ st' = None).
Proof.
  intros Hrun.
  destruct (MotionPlanner.computeReference (stamp_of st) (motion_planner_ st))
    as [[ref_pose ref_twist] mp] eqn:Href.
  destruct (Controller.computeCommand (stamp_of st)
              (PoseStamped.pose (robot_pose_ st)) ref_pose
              (TwistStamped.twist (robot_twist_ st)) ref_twist (controller_ st))
    as [map_cmd c] eqn:Hcmd.
  cbn [fst].
  destruct (computeVelocityCommands_cases st cmd _ _ _ _ _ Href Hcmd)
    as [[Hv H] | [(Hv & Hd & H)
                  | [(Hv & Hd & safe & Hs & H) | (_ & _ & _ & H)]]];
    rewrite H in Hrun; cbn in Hrun; try discriminate;
    injection Hrun as <- <- <-.
  - split; [split; [discriminate | tauto] | discriminate].
  - split; [tauto |]. intros _. split; [reflexivity |].
    unfold after_deviation.
    now destruct (ReplanningGuard.enabled (replanning_guard st)).
  - split; [split; [discriminate | tauto] | discriminate].
Qed.

(** X3: a tick never touches the parameters, the robot pose and twist or the
    observers, and it never sets a goal: after a tick that answered true the
    goal and the replanning guard are as before. *)
Theorem computeVelocityCommands_frame
    (st st' : St) (cmd cmd' : Twist.t) (b : bool) :
  outcome (computeVelocityCommands cmd st) = Some ((b, cmd'), st') ->
  params_ st' = params_ st
  /\ robot_pose_ st' = robot_pose_ st
  /\ robot_twist_ st' = robot_twist_ st
  /\ safety_observers_ st' = safety_observers_ st
  /\ (current_goal_ st' = current_goal_ st \/ current_goal_ st' = None)
  /\ (b = true ->
      current_goal_ st' = current_goal_ st
      /\ replanning_guard st' = replanning_guard st).
Proof.
  intros Hrun.
  destruct (MotionPlanner.computeReference (stamp_of st) (motion_planner_ st))
    as [[ref_pose ref_twist] mp] eqn:Href.
  destruct (Controller.computeCommand (stamp_of st)
              (PoseStamped.pose (robot_pose_ st)) ref_pose
              (TwistStamped.twist (robot_twist_ st)) ref_twist (controller_ st))
    as [map_cmd c] eqn:Hcmd.
  destruct (computeVelocityCommands_cases st cmd _ _ _ _ _ Href Hcmd)
    as [[Hv H] | [(Hv & Hd & H)
                  | [(Hv & Hd & safe & Hs & H) | (_ & _ & _ & H)]]];
    rewrite H in Hrun; cbn in Hrun; try discriminate;
    injection Hrun as <- <- <-.
  - repeat split; auto.
  - unfold after_deviation.
    destruct (ReplanningGuard.enabled (replanning_guard st));
      repeat split; auto; discriminate.
  - repeat split; auto.
Qed.

(** X4: [isGoalReached] answers true exactly when a goal is active and the
    robot pose is within both tolerances of it; when it answers false it has
    changed nothing. *)
Theorem isGoalReached_true_iff (st : St) :
  exists b st',
    outcome (isGoalReached st) = Some (b, st')
    /\ (b = true <->
        exists goal, current_goal_ st = Some goal /\ within_tolerance st goal)
    /\ (b = false -> st' = st).
Proof.
  destruct (current_goal_ st) as [goal |] eqn:Hg.
  - destruct (Rleb (math.linearDistance2D
                      (PoseStamped.pose (robot_pose_ st)) goal)
                   (goal_lin_tolerance (params_ st))
              && Rleb (math.angularDistanceYaw
                         (PoseStamped.pose (robot_pose_ st)) goal)
                      (goal_ang_tolerance (params_ st))) eqn:Hw.
    + assert (Hin : within_tolerance st goal).
      { apply andb_true_iff in Hw. destruct Hw as [Hl Ha].
        split; now apply Rleb_true. }
      exists true, (after_reached st).
      rewrite (isGoalReached_reached st goal Hg Hin).
      repeat split; try discriminate. intros _. now exists goal.
    + assert (Hout : ~ within_tolerance st goal).
      { intros [Hl Ha]. apply Rleb_true in Hl. apply Rleb_true in Ha.
        rewrite Hl, Ha in Hw. discriminate. }
      exists false, st.
      rewrite (isGoalReached_not_reached st goal Hg Hout).
      repeat split; try discriminate.
      intros (goal' & Hg' & Hin). congruence.
  - exists false, st. rewrite (isGoalReached_idle st Hg).
    repeat split; try discriminate.
    intros (goal' & Hg' & _). discriminate.
Qed.

(** *** Odometry *)

Lemma odomCallback_run (st : St) (odom : Odometry.t) :
  outcome (odomCallback odom st) =
    match
      TransformListener.transformPose (global_frame_id st)
        (PoseStamped.mk (Odometry.header odom) (Odometry.pose odom))
    with
    | Some p => Some (tt, after_odometry p odom st)
    | None => Some (tt, st)
    end.
Proof.
  unfold odomCallback, odomCallback_locked. run_M.
  destruct (TransformListener.transformPose _ _); reflexivity.
Qed.

(** X5: when the transform of the odometry pose into the map frame fails,
    [odomCallback] drops the message: the planner state is exactly as
    before. *)
Theorem odomCallback_transform_failure (st : St) (odom : Odometry.t) :
  TransformListener.transformPose (global_frame_id st)
    (PoseStamped.mk (Odometry.header odom) (Odometry.pose odom)) = None ->
  odomCallback odom st
  = ([Lock; Call waitForTransform_; Call transformPose_; Unlock],
     Some (tt, st)).
Proof.
  intros Hno. unfold odomCallback, odomCallback_locked. run_M.
  now rewrite Hno.
Qed.

(** X6: when the transform succeeds, [odomCallback] stores the transformed
    pose and converts the odometry twist with the heading of that new pose;
    it assigns the three planar components of the stored twist only, so the
    header of [robot_twist_] and its other components stay as they were, and
    it touches neither the goal, the controller, the motion planner, the
    parameters nor the replanning guard. *)
Theorem odomCallback_transform_success (st : St) (odom : Odometry.t)
    (p : PoseStamped.t) :
  TransformListener.transformPose (global_frame_id st)
    (PoseStamped.mk (Odometry.header odom) (Odometry.pose odom)) = Some p ->
  exists st',
    outcome (odomCallback odom st) = Some (tt, st')
    /\ robot_pose_ st' = p
    /\ (let yaw := tf.getYaw (Pose.orientation (PoseStamped.pose p)) in
        let vx := Vector3.x (Twist.linear (Odometry.twist odom)) in
        let vy := Vector3.y (Twist.linear (Odometry.twist odom)) in
        planar (TwistStamped.twist (robot_twist_ st'))
        = (cos yaw * vx - sin yaw * vy, sin yaw * vx + sin yaw * vy,
           Vector3.z (Twist.angular (Odometry.twist odom))))
    /\ TwistStamped.header (robot_twist_ st')
       = TwistStamped.header (robot_twist_ st)
    /\ Vector3.z (Twist.linear (TwistStamped.twist (robot_twist_ st')))
       = Vector3.z (Twist.linear (TwistStamped.twist (robot_twist_ st)))
    /\ Vector3.x (Twist.angular (TwistStamped.twist (robot_twist_ st')))
       = Vector3.x (Twist.angular (TwistStamped.twist (robot_twist_ st)))
    /\ Vector3.y (Twist.angular (TwistStamped.twist (robot_twist_ st')))
       = Vector3.y (Twist.angular (TwistStamped.twist (robot_twist_ st)))
    /\ current_goal_ st' = current_goal_ st
    /\ controller_ st' = controller_ st
    /\ motion_planner_ st' = motion_planner_ st
    /\ params_ st' = params_ st
    /\ replanning_guard st' = replanning_guard st.
Proof.
  intros Hp. exists (after_odometry p odom st).
  rewrite odomCallback_run, Hp. repeat split.
Qed.

(** *** Frame conversion, continued *)

(** X7: [twistToRobotFrame] is the rotation of the linear velocity by minus
    the robot heading: it keeps the angular velocity and the linear speed,
    and it takes the rotation by the heading of any twist back to that
    twist. *)
Theorem twistToRobotFrame_is_rotation (st : St)
    (map_twist robot_twist : Twist.t) :
  planar (twistToRobotFrame st map_twist robot_twist)
  = rotated (- robot_yaw st) map_twist
  /\ lin_speed (twistToRobotFrame st map_twist robot_twist)
     = lin_speed map_twist
  /\ forall t : Twist.t,
       planar map_twist = rotated (robot_yaw st) t ->
       planar (twistToRobotFrame st map_twist robot_twist) = planar t.
Proof.
  split; [reflexivity |].
  split; [apply twistToRobotFrame_speed |].
  intros t Ht. rewrite twistToRobotFrame_planar.
  unfold planar, rotated in *. fold (robot_yaw st) in *.
  injection Ht as Hx Hy Hz. rewrite Hx, Hy, Hz.
  pose proof (sin2_cos2 (robot_yaw st)) as Hsc. unfold Rsqr in Hsc.
  set (s := sin (robot_yaw st)) in *. set (c := cos (robot_yaw st)) in *.
  set (x := Vector3.x (Twist.linear t)). set (y := Vector3.y (Twist.linear t)).
  f_equal. f_equal.
  - transitivity ((s * s + c * c) * x); [ring | rewrite Hsc; ring].
  - transitivity ((s * s + c * c) * y); [ring | rewrite Hsc; ring].
Qed.

(** X8: [twistToGlobalFrame] followed by [twistToRobotFrame] gives the twist
    back exactly when [(sin yaw - cos yaw) * linear.y] is zero; in
    particular for every twist without lateral velocity, and for every twist
    when sine and cosine of the heading agree. *)
Theorem twist_round_trip_iff (st : St) (t d1 d2 : Twist.t) :
  planar (twistToRobotFrame st (twistToGlobalFrame st t d1) d2) = planar t
  <-> (sin (robot_yaw st) - cos (robot_yaw st)) * Vector3.y (Twist.linear t)
      = 0.
Proof.
  rewrite twistToRobotFrame_planar.
  unfold planar, twistToGlobalFrame.
  cbn [set_linear_x set_linear_y set_angular_z Twist.linear Twist.angular
       Vector3.x Vector3.y Vector3.z].
  fold (robot_yaw st).
  pose proof (sin2_cos2 (robot_yaw st)) as Hsc. unfold Rsqr in Hsc.
  set (s := sin (robot_yaw st)) in *. set (c := cos (robot_yaw st)) in *.
  set (x := Vector3.x (Twist.linear t)). set (y := Vector3.y (Twist.linear t)).
  assert (Ex : c * (c * x - s * y) + s * (s * x + s * y)
               = x + s * ((s - c) * y)).
  { transitivity ((s * s + c * c) * x + s * ((s - c) * y));
      [ring | rewrite Hsc; ring]. }
  assert (Ey : - s * (c * x - s * y) + c * (s * x + s * y)
               = y + c * ((s - c) * y)).
  { transitivity ((s * s + c * c) * y + c * ((s - c) * y));
      [ring | rewrite Hsc; ring]. }
  rewrite Ex, Ey. set (e := (s - c) * y).
  split.
  - intros H. injection H as H1 H2.
    assert (Hs : s * e = 0) by lra. assert (Hc : c * e = 0) by lra.
    transitivity ((s * s + c * c) * e); [rewrite Hsc; ring |].
    replace ((s * s + c * c) * e) with (s * (s * e) + c * (c * e)) by ring.
    rewrite Hs, Hc. ring.
  - intros ->. f_equal. f_equal; ring.
Qed.

(** *** Twist shaping, continued *)

(** X9: under non-negative bounds [safeVelocityCommands] is idempotent:
    shaping a shaped twist returns it unchanged. *)
Theorem safeVelocityCommands_idempotent (st : St)
    (twist safe_twist : Twist.t) :
  0 <= max_safe_lin_velocity (params_ st) ->
  0 <= max_safe_ang_velocity (params_ st) ->
  safeVelocityCommands st twist = Some safe_twist ->
  safeVelocityCommands st safe_twist = Some safe_twist.
Proof.
  intros Hl Ha Hrun.
  destruct (safeVelocityCommands_bounded st twist safe_twist Hl Ha Hrun)
    as [Hbl Hba].
  rewrite (safeVelocityCommands_components st safe_twist Hl).
  unfold lin_speed, ang_speed in *.
  rewrite (clamped_linear_id _ _ _ Hbl), (clamped_angular_id _ _ Hba).
  now destruct safe_twist as [[lx ly lz] [ax ay az]].
Qed.

(** *** Plan intake, continued *)

Lemma setPlan_cases (st : St) (waypoints : list PoseStamped.t) :
  (waypoints = [] /\ outcome (setPlan waypoints st) = Some (false, st))
  \/ (exists w ws, waypoints = w :: ws
       /\ (outcome (setPlan waypoints st) = Some (true, st)
           \/ outcome (setPlan waypoints st)
              = Some (true, after_new_goal waypoints (last waypoints w) st)
           \/ outcome (setPlan waypoints st)
              = Some (true, after_update waypoints st))).
Proof.
  destruct waypoints as [| w ws]; [left; split; reflexivity |].
  right. exists w, ws. split; [reflexivity |].
  destruct (ReplanningGuard.replanningFlag (replanning_guard st)) eqn:Hf.
  - rewrite (setPlan_accepted st w ws Hf).
    destruct (newGoal _ _); [right; left | right; right]; reflexivity.
  - left. unfold setPlan. run_M. now rewrite Hf.
Qed.

(** X10: [setPlan] answers false for the empty plan only, and whatever it
    answers it leaves the replanning guard, the parameters, the robot pose
    and twist and the observers as they were: accepting a plan does not
    clear the replanning flag. *)
Theorem setPlan_frame (st : St) (waypoints : list PoseStamped.t) :
  exists b st',
    outcome (setPlan waypoints st) = Some (b, st')
    /\ (b = false <-> waypoints = [])
    /\ replanning_guard st' = replanning_guard st
    /\ params_ st' = params_ st
    /\ robot_pose_ st' = robot_pose_ st
    /\ robot_twist_ st' = robot_twist_ st
    /\ safety_observers_ st' = safety_observers_ st.
Proof.
  destruct (setPlan_cases st waypoints)
    as [[-> H] | (w & ws & -> & [H | [H | H]])];
    rewrite H; eexists _, _; (split; [reflexivity |]);
    repeat split; try discriminate; trivial.
Qed.

(** X11: once [setPlan] has processed a plan, a further plan with the same
    terminal pose is a trajectory update, not a new goal, provided the
    distance functions put that pose within 1e-8 of itself: the goal and
    the controller are left alone and only [update] is called on the motion
    planner. *)
Theorem setPlan_again_updates (st : St) (w w' : PoseStamped.t)
    (ws ws' : list PoseStamped.t) :
  ReplanningGuard.replanningFlag (replanning_guard st) = true ->
  PoseStamped.pose (last (w' :: ws') w')
  = PoseStamped.pose (last (w :: ws) w) ->
  ~ differs (PoseStamped.pose (last (w :: ws) w))
            (PoseStamped.pose (last (w :: ws) w)) ->
  exists st1,
    outcome (setPlan (w :: ws) st) = Some (true, st1)
    /\ setPlan (w' :: ws') st1
       = (update_trace, Some (true, after_update (w' :: ws') st1))
    /\ current_goal_ (after_update (w' :: ws') st1) = current_goal_ st1
    /\ controller_ (after_update (w' :: ws') st1) = controller_ st1.
Proof.
  intros Hf Hsame Hrefl.
  set (p := PoseStamped.pose (last (w :: ws) w)) in *.
  assert (Hnot : forall st1 : St,
            replanning_guard st1 = replanning_guard st ->
            newGoal st1 p = false ->
            setPlan (w' :: ws') st1
            = (update_trace, Some (true, after_update (w' :: ws') st1))).
  { intros st1 Hg Hn.
    assert (Hf1 : ReplanningGuard.replanningFlag (replanning_guard st1) = true)
      by now rewrite Hg.
    rewrite (setPlan_accepted st1 w' ws' Hf1), Hsame. now rewrite Hn. }
  rewrite (setPlan_accepted st w ws Hf). fold p.
  destruct (newGoal st p) eqn:Hn.
  - exists (after_new_goal (w :: ws) (last (w :: ws) w) st).
    split; [reflexivity |]. split; [| split; reflexivity].
    apply Hnot; [reflexivity |].
    apply not_true_is_false. intros Hn'.
    apply (newGoal_differs _ p p) in Hn'; [contradiction | reflexivity].
  - exists (after_update (w :: ws) st).
    split; [reflexivity |]. split; [| split; reflexivity].
    apply Hnot; [reflexivity |]. exact Hn.
Qed.

(** X12: when [setPlan] accepts a plan as a new goal while the robot already
    stands within both tolerances of the terminal pose, the next
    [isGoalReached] answers true and the goal is dropped again. *)
Theorem setPlan_then_isGoalReached (st : St) (w : PoseStamped.t)
    (ws : list PoseStamped.t) :
  ReplanningGuard.replanningFlag (replanning_guard st) = true ->
  newGoal st (PoseStamped.pose (last (w :: ws) w)) = true ->
  within_tolerance st (PoseStamped.pose (last (w :: ws) w)) ->
  exists st1 st2,
    outcome (setPlan (w :: ws) st) = Some (true, st1)
    /\ current_goal_ st1 = Some (PoseStamped.pose (last (w :: ws) w))
    /\ outcome (isGoalReached st1) = Some (true, st2)
    /\ current_goal_ st2 = None.
Proof.
  intros Hf Hn Hin.
  exists (after_new_goal (w :: ws) (last (w :: ws) w) st).
  exists (after_reached (after_new_goal (w :: ws) (last (w :: ws) w) st)).
  rewrite (setPlan_accepted st w ws Hf), Hn.
  split; [reflexivity |]. split; [reflexivity |].
  split; [| reflexivity].
  now rewrite (isGoalReached_reached
                 (after_new_goal (w :: ws) (last (w :: ws) w) st)
                 (PoseStamped.pose (last (w :: ws) w)) eq_refl Hin).
Qed.

(** *** Reconfiguration and start-up *)


End MoreProperties.

Lemma build_safety_observers_app (scan_tag arm_tag : string)
    (tags : list string) (acc : list ObserverKind) :
  build_safety_observers scan_tag arm_tag tags acc
  = acc ++ build_safety_observers scan_tag arm_tag tags [].
Proof.
  revert acc. induction tags as [| tag tags IH]; intros acc.
  - cbn. now rewrite app_nil_r.
  - cbn [build_safety_observers].
    destruct (String.eqb tag scan_tag), (String.eqb tag arm_tag);
      match goal with
      | |- build_safety_observers _ _ _ ?a
           = _ ++ build_safety_observers _ _ _ ?b =>
          rewrite (IH a), (IH b)
      end;
      cbn [app]; rewrite <- ?app_assoc; reflexivity.
Qed.

Lemma build_safety_observers_cons (scan_tag arm_tag tag : string)
    (tags : list string) :
  build_safety_observers scan_tag arm_tag (tag :: tags) []
  = (if String.eqb tag scan_tag then [ScanObserver] else [])
    ++ (if String.eqb tag arm_tag then [ArmSkinObserver] else [])
    ++ build_safety_observers scan_tag arm_tag tags [].
Proof.
  cbn [build_safety_observers]. rewrite build_safety_observers_app.
  destruct (String.eqb tag scan_tag), (String.eqb tag arm_tag); reflexivity.
Qed.

(** X14: the observers that [initialize] builds from the configured tags:
    a scan observer is built exactly when the scan tag is configured, an
    arm-skin observer exactly when the arm-skin tag is configured; tags that
    are neither build nothing, and with two different tags at most one
    observer is built per configured tag. *)
Theorem build_safety_observers_by_tag (scan_tag arm_tag : string)
    (tags : list string) :
  let built := build_safety_observers scan_tag arm_tag tags [] in
  (In ScanObserver built <-> In scan_tag tags)
  /\ (In ArmSkinObserver built <-> In arm_tag tags)
  /\ (~ In scan_tag tags -> ~ In arm_tag tags -> built = [])
  /\ (scan_tag <> arm_tag -> (List.length built <= List.length tags)%nat).
Proof.
  induction tags as [| tag tags IH].
  - cbn. repeat split; intros; try contradiction; trivial; lia.
  - cbv zeta in *. destruct IH as (IHs & IHa & IHn & IHl).
    rewrite build_safety_observers_cons.
    rewrite !in_app_iff, !length_app, IHs, IHa. cbn [In].
    destruct (String.eqb_spec tag scan_tag) as [Hs | Hs];
      destruct (String.eqb_spec tag arm_tag) as [Ha | Ha];
      cbn [In List.length app]; repeat split; intros;
      try solve [intuition (try discriminate; try congruence)].
    all: match goal with
         | H : _ <> _ :> string |- _ => specialize (IHl H)
         end; cbn [Nat.add]; lia.
Qed.

(** ** [CellData.h] *)




(** ** [preprocessing.cpp]: reading the sensor pose *)

Lemma index_comma_free (a : string) :
  comma_free a = true -> index 0 "," a = None.
Proof.
  induction a as [| c a IH]; [reflexivity |].
  cbn [comma_free]. intros H. apply andb_true_iff in H. destruct H as [Hc Ha].
  apply negb_true_iff, Ascii.eqb_neq in Hc.
  cbn [index prefix].
  destruct (Ascii.ascii_dec ","%char c) as [E | _]; [congruence |].
  now rewrite (IH Ha).
Qed.

Lemma index_first_comma (a rest : string) :
  comma_free a = true ->
  index 0 "," (a ++ String ","%char rest) = Some (String.length a).
Proof.
  induction a as [| c a IH].
  - intros _. cbn. now destruct rest.
  - cbn [comma_free]. intros H. apply andb_true_iff in H.
    destruct H as [Hc Ha]. apply negb_true_iff, Ascii.eqb_neq in Hc.
    cbn [append index prefix String.length].
    destruct (Ascii.ascii_dec ","%char c) as [E | _]; [congruence |].
    now rewrite (IH Ha).
Qed.

Lemma substring_prefix (a r : string) :
  substring 0 (String.length a) (a ++ r) = a.
Proof.
  induction a as [| c a IH]; cbn.
  - now destruct r.
  - now rewrite IH.
Qed.

Lemma substring_whole (s : string) : substring 0 (String.length s) s = s.
Proof. induction s as [| c s IH]; cbn; [| rewrite IH]; reflexivity. Qed.

Lemma substring_after_comma (a rest : string) :
  substring (S (String.length a))
    (String.length (a ++ String ","%char rest) - S (String.length a))
    (a ++ String ","%char rest) = rest.
Proof.
  induction a as [| c a IH].
  - cbn. rewrite Nat.sub_0_r. apply substring_whole.
  - cbn [append String.length substring]. exact IH.
Qed.

Lemma next_field_comma_free (a : string) :
  comma_free a = true -> next_field a = (a, a).
Proof. intros H. unfold next_field. now rewrite (index_comma_free a H). Qed.

Lemma next_field_comma (a rest : string) :
  comma_free a = true -> next_field (a ++ String ","%char rest) = (a, rest).
Proof.
  intros H. unfold next_field. rewrite (index_first_comma a rest H).
  now rewrite substring_prefix, substring_after_comma.
Qed.

Lemma fields_comma_free (n : nat) (a : string) :
  comma_free a = true -> fields n a = repeat a n.
Proof.
  intros H. induction n as [| n IH]; [reflexivity |].
  cbn [fields repeat]. rewrite (next_field_comma_free a H). now rewrite IH.
Qed.

Lemma firstn_repeat (A : Type) (n m : nat) (a : A) :
  (n <= m)%nat -> firstn n (repeat a m) = repeat a n.
Proof.
  revert m. induction n as [| n IH]; intros m Hle; [reflexivity |].
  destruct m as [| m]; [lia |]. cbn. f_equal. apply IH. lia.
Qed.

Lemma firstn_app_repeat (A : Type) (n m m' : nat) (l : list A) (a : A) :
  (n <= List.length l + m)%nat -> (n <= List.length l + m')%nat ->
  firstn n (l ++ repeat a m) = firstn n (l ++ repeat a m').
Proof.
  revert n. induction l as [| x l IH]; intros n Hm Hm'.
  - cbn [app List.length] in *. now rewrite !firstn_repeat by lia.
  - destruct n as [| n]; [reflexivity |].
    cbn [app firstn List.length] in *. f_equal. apply IH; lia.
Qed.

Lemma last_cons_default (A : Type) (l : list A) (x d d' : A) :
  last (x :: l) d = last (x :: l) d'.
Proof.
  revert x. induction l as [| y l IH]; intros x; [reflexivity |].
  change (last (y :: l) d = last (y :: l) d'). apply IH.
Qed.

Lemma fields_concat (n : nat) (f : string) (fs : list string) :
  forallb comma_free (f :: fs) = true ->
  fields n (concat "," (f :: fs))
  = firstn n ((f :: fs) ++ repeat (last (f :: fs) f) n).
Proof.
  revert n f. induction fs as [| g fs IH]; intros n f Hfree.
  - cbn [forallb] in Hfree. apply andb_true_iff in Hfree.
    destruct Hfree as [Hf _]. cbn [concat last app].
    rewrite (fields_comma_free n f Hf).
    change (f :: repeat f n) with (repeat f (S n)).
    symmetry. apply firstn_repeat. lia.
  - cbn [forallb] in Hfree. apply andb_true_iff in Hfree.
    destruct Hfree as [Hf Hrest].
    destruct n as [| n]; [reflexivity |].
    change (concat "," (f :: g :: fs))
      with (f ++ String ","%char (concat "," (g :: fs)))%string.
    cbn [fields]. rewrite (next_field_comma f _ Hf).
    rewrite (IH n g Hrest).
    change (last (f :: g :: fs) f) with (last (g :: fs) f).
    rewrite (last_cons_default _ fs g f g).
    cbn [app firstn]. f_equal.
    apply (firstn_app_repeat _ n n (S n) (g :: fs)); cbn [List.length]; lia.
Qed.

(** X16: the seven fields that the loop reads from a line of comma-separated
    texts: with seven texts it reads them back as they are, with more it
    reads the first seven, and with fewer it reads the last text again for
    every missing field (a line without a comma gives its whole text seven
    times). *)
Theorem fields_of_line (f : string) (fs : list string) :
  forallb comma_free (f :: fs) = true ->
  let line := concat "," (f :: fs) in
  fields 7 line = firstn 7 ((f :: fs) ++ repeat (last (f :: fs) f) 7)
  /\ (List.length (f :: fs) = 7%nat -> fields 7 line = f :: fs)
  /\ ((7 <= List.length (f :: fs))%nat -> fields 7 line = firstn 7 (f :: fs))
  /\ ((List.length (f :: fs) <= 7)%nat ->
      fields 7 line
      = (f :: fs) ++ repeat (last (f :: fs) f) (7 - List.length (f :: fs))).
Proof.
  intros Hfree line. pose proof (fields_concat 7 f fs Hfree) as H.
  fold line in H. rewrite H. split; [reflexivity |].
  assert (Hlong : (7 <= List.length (f :: fs))%nat ->
                  firstn 7 ((f :: fs) ++ repeat (last (f :: fs) f) 7)
                  = firstn 7 (f :: fs)).
  { intros Hle. rewrite firstn_app.
    replace (7 - List.length (f :: fs))%nat with 0%nat by lia.
    cbn [firstn]. apply app_nil_r. }
  assert (Hshort : (List.length (f :: fs) <= 7)%nat ->
                   firstn 7 ((f :: fs) ++ repeat (last (f :: fs) f) 7)
                   = (f :: fs)
                     ++ repeat (last (f :: fs) f) (7 - List.length (f :: fs))).
  { intros Hle. rewrite firstn_app, firstn_all2 by exact Hle.
    f_equal. apply firstn_repeat. lia. }
  split; [| split; assumption].
  intros Hlen. rewrite Hlong by lia. apply firstn_all2. lia.
Qed.

(** X17: the loop over the lines of the file keeps the last line only: for a
    file with at least one line, [trans] holds the seven numbers read from
    the last line; for a file without lines it is left as it was. *)
Theorem read_lines_last_line (atof : string -> R) (lines : list string)
    (trans : list R) :
  read_lines atof [] trans = trans
  /\ (lines <> [] ->
      read_lines atof lines trans = read_line atof (last lines EmptyString)
      /\ List.length (read_lines atof lines trans) = 7%nat).
Proof.
  split; [reflexivity |]. intros Hne.
  assert (H : read_lines atof lines trans
              = read_line atof (last lines EmptyString)).
  { revert trans. induction lines as [| l lines IH]; intros trans;
      [contradiction |].
    destruct lines as [| l' lines]; [reflexivity |].
    change (read_lines atof (l :: l' :: lines) trans)
      with (read_lines atof (l' :: lines) (read_line atof l)).
    rewrite (IH ltac:(discriminate)). reflexivity. }
  split; [exact H |]. rewrite H. unfold read_line. rewrite length_map.
  generalize (last lines EmptyString). intros line. cbn [fields].
  repeat (destruct (next_field _) as [? ?]; cbn [List.length]).
  reflexivity.
Qed.

(** ** [preprocessing.cpp]: static and potentially dynamic points *)

Lemma int_wrap_small (n : Z) :
  (- 2 ^ 31 <= n < 2 ^ 31)%Z -> int_wrap n = n.
Proof.
  intros H. unfold int_wrap. rewrite Z.mod_small; lia.
Qed.

Lemma push_indices_indexed (flags : list bool) (k : nat)
    (static_indices dynamic_indices : list Z) :
  (Z.of_nat (k + List.length flags) < 2 ^ 31)%Z ->
  let indexed :=
    combine (map Z.of_nat (seq k (List.length flags))) flags in
  push_indices flags (Z.of_nat k) static_indices dynamic_indices
  = (static_indices ++ map fst (filter snd indexed),
     dynamic_indices ++ map fst (filter (fun e => negb (snd e)) indexed)).
Proof.
  revert k static_indices dynamic_indices.
  induction flags as [| g flags IH]; intros k s d Hk.
  - cbn. now rewrite !app_nil_r.
  - cbn [List.length] in Hk. cbv zeta in *.
    cbn [push_indices List.length seq map combine filter snd fst].
    rewrite int_wrap_small by lia.
    replace (Z.of_nat k + 1)%Z with (Z.of_nat (S k)) by lia.
    destruct g; cbn [negb map fst]; rewrite IH by lia;
      rewrite <- ?app_assoc; reflexivity.
Qed.

Lemma filter_split_permutation (A : Type) (f : A -> bool) (l : list A) :
  Permutation (filter f l ++ filter (fun x => negb (f x)) l) l.
Proof.
  induction l as [| x l IH]; [constructor |].
  cbn [filter]. destruct (f x); cbn [negb app].
  - now constructor.
  - symmetry. apply Permutation_cons_app. now symmetry.
Qed.

Lemma map_fst_combine (A B : Type) (a : list A) (b : list B) :
  List.length a = List.length b -> map fst (combine a b) = a.
Proof.
  revert b. induction a as [| x a IH]; intros [| y b] H;
    try discriminate; [reflexivity |].
  cbn. f_equal. apply IH. now injection H.
Qed.

Lemma copyPointCloud_app (cloud : list PointXYZ.t) (i j : list Z) :
  copyPointCloud cloud (i ++ j)
  = copyPointCloud cloud i ++ copyPointCloud cloud j.
Proof. unfold copyPointCloud. apply flat_map_app. Qed.

Lemma copyPointCloud_indexed (pre pts : list PointXYZ.t)
    (flags : list bool) :
  copyPointCloud (pre ++ pts)
    (map fst
       (filter snd
          (combine (map Z.of_nat (seq (List.length pre) (List.length pts)))
             flags)))
  = map fst (filter snd (combine pts flags)).
Proof.
  revert pre flags. induction pts as [| p pts IH]; intros pre [| g flags];
    try reflexivity.
  cbn [List.length seq map combine filter snd].
  assert (Hrest :
    copyPointCloud (pre ++ p :: pts)
      (map fst
         (filter snd
            (combine (map Z.of_nat (seq (S (List.length pre))
                                      (List.length pts)))
               flags)))
    = map fst (filter snd (combine pts flags))).
  { specialize (IH (pre ++ [p]) flags).
    rewrite <- app_assoc, length_app in IH. cbn [app List.length] in IH.
    now rewrite Nat.add_1_r in IH. }
  destruct g.
  - cbn [map fst]. change (?x :: ?l) with ([x] ++ l) at 2.
    rewrite copyPointCloud_app, Hrest.
    unfold copyPointCloud at 1. cbn [flat_map].
    destruct (Z.ltb_spec (Z.of_nat (List.length pre)) 0) as [Hneg | _];
      [lia |].
    rewrite Nat2Z.id, nth_error_app2, Nat.sub_diag by lia.
    reflexivity.
  - exact Hrest.
Qed.

Lemma filter_negb_indexed (A : Type) (idx : list A) (flags : list bool) :
  map fst (filter (fun e => negb (snd e)) (combine idx flags))
  = map fst (filter snd (combine idx (map negb flags))).
Proof.
  revert idx. induction flags as [| g flags IH]; intros [| i idx];
    try reflexivity.
  cbn [map combine filter snd]. destruct g; cbn [negb map fst];
    now rewrite IH.
Qed.

Lemma filter_flags_of_test (A : Type) (f : A -> bool) (l : list A) :
  map fst (filter snd (combine l (map f l))) = filter f l
  /\ map fst (filter (fun e => negb (snd e)) (combine l (map f l)))
     = filter (fun x => negb (f x)) l.
Proof.
  induction l as [| x l [IHs IHd]]; [split; reflexivity |].
  cbn [map combine filter snd]. destruct (f x); cbn [negb map fst];
    rewrite ?IHs, ?IHd; split; reflexivity.
Qed.

Lemma length_flags_split (A : Type) (l : list A) (flags : list bool) :
  List.length l = List.length flags ->
  (List.length (map fst (filter snd (combine l flags)))
   + List.length
       (map fst (filter (fun e => negb (snd e)) (combine l flags)))
   = List.length l)%nat.
Proof.
  revert flags. induction l as [| x l IH]; intros [| g flags] H;
    try discriminate; [reflexivity |].
  injection H as H. specialize (IH flags H).
  cbn [combine filter snd]. destruct g; cbn [negb map List.length]; lia.
Qed.

(** *** The parallel loop *)

Lemma is_ground_cons (survives : nat -> bool) (thr : float) (p : PointXYZ.t)
    (points : list PointXYZ.t) :
  is_ground survives thr (p :: points)
  = (ground_or_far thr p && survives 0%nat)
    :: is_ground (fun i => survives (S i)) thr points.
Proof.
  unfold is_ground. cbn [List.length seq combine map fst snd]. f_equal.
  rewrite <- seq_shift.
  generalize (seq 0 (List.length points)). intros idx. revert idx.
  induction points as [| q points IH]; intros [| i idx]; try reflexivity.
  cbn [map combine fst snd]. now rewrite IH.
Qed.

Lemma length_is_ground (survives : nat -> bool) (thr : float)
    (points : list PointXYZ.t) :
  List.length (is_ground survives thr points) = List.length points.
Proof.
  unfold is_ground.
  now rewrite length_map, length_combine, length_seq, Nat.min_id.
Qed.

(** A flag is set only where the point passes the test. *)
Lemma is_ground_sound (survives : nat -> bool) (thr : float)
    (points : list PointXYZ.t) :
  Forall (fun p => ground_or_far thr p = true)
    (map fst (filter snd (combine points (is_ground survives thr points)))).
Proof.
  revert survives. induction points as [| p points IH]; intros survives;
    [constructor |].
  rewrite is_ground_cons. cbn [combine filter snd].
  destruct (ground_or_far thr p) eqn:Hp; cbn [andb]; [| apply IH].
  destruct (survives 0%nat); cbn [map fst]; [| apply IH].
  constructor; [exact Hp | apply IH].
Qed.

(** A point that fails the test is never flagged. *)
Lemma is_ground_rest (survives : nat -> bool) (thr : float)
    (points : list PointXYZ.t) (p : PointXYZ.t) :
  In p points -> ground_or_far thr p = false ->
  In p (map fst (filter (fun e => negb (snd e))
                   (combine points (is_ground survives thr points)))).
Proof.
  revert survives. induction points as [| q points IH]; intros survives Hin Hp;
    [contradiction |].
  rewrite is_ground_cons. cbn [combine filter snd].
  destruct Hin as [-> | Hin].
  - rewrite Hp. cbn [andb negb map fst]. now left.
  - destruct (ground_or_far thr q && survives 0%nat); cbn [negb map fst];
      [| right]; now apply IH.
Qed.

(** With every store in place the flags are the tests of the points. *)
Lemma is_ground_no_loss (survives : nat -> bool) (thr : float)
    (points : list PointXYZ.t) :
  (forall i : nat, (i < List.length points)%nat -> survives i = true) ->
  is_ground survives thr points = map (ground_or_far thr) points.
Proof.
  revert survives. induction points as [| p points IH]; intros survives H;
    [reflexivity |].
  rewrite is_ground_cons. cbn [map]. cbn [List.length] in H.
  rewrite (H 0%nat) by lia. rewrite andb_true_r. f_equal.
  apply IH. intros i Hi. apply H. lia.
Qed.

Lemma length_filter_split (A : Type) (f : A -> bool) (l : list A) :
  (List.length (filter f l) + List.length (filter (fun x => negb (f x)) l)
   = List.length l)%nat.
Proof.
  induction l as [| x l IH]; [reflexivity |].
  cbn [filter]. destruct (f x); cbn [negb List.length]; lia.
Qed.

Section NodeProperties.

Context {env : tfPointCloud.ops}.

Lemma preprocessing_run (self : tfPointCloud.t) (cloud : list PointXYZ.t) :
  (Z.of_nat (List.length (tfPointCloud.processed self cloud)) < 2 ^ 31)%Z ->
  exists self' static_indices dynamic_indices,
    tfPointCloud.preprocessing self cloud [] []
    = (self', tfPointCloud.processed self cloud, static_indices,
       dynamic_indices)
    /\ self'
       = tfPointCloud.mk (tfPointCloud.counter self) true
           (tfPointCloud.input_folder self)
           (tfPointCloud.matrix_in_use self)
           (tfPointCloud.static_front_threshold self)
           (tfPointCloud.previous_cloud self)
           (tfPointCloud.previous_dynamic self)
           (tfPointCloud.request self)
    /\ copyPointCloud (tfPointCloud.processed self cloud) static_indices
       = tfPointCloud.static_points self cloud
    /\ copyPointCloud (tfPointCloud.processed self cloud) dynamic_indices
       = tfPointCloud.dynamic_points self cloud
    /\ Permutation (static_indices ++ dynamic_indices)
         (positions (List.length (tfPointCloud.processed self cloud))).
Proof.
  intros Hlen. unfold tfPointCloud.preprocessing.
  set (self' := if negb (tfPointCloud.load_transform self) then _ else self).
  assert (Hself : self'
                  = tfPointCloud.mk (tfPointCloud.counter self) true
                      (tfPointCloud.input_folder self)
                      (tfPointCloud.matrix_in_use self)
                      (tfPointCloud.static_front_threshold self)
                      (tfPointCloud.previous_cloud self)
                      (tfPointCloud.previous_dynamic self)
                      (tfPointCloud.request self)).
  { unfold self', tfPointCloud.matrix_in_use.
    destruct self as [c [|] f m t pc pd r]; reflexivity. }
  clearbody self'. subst self'.
  cbn [tfPointCloud.sensor_base_link_trans tfPointCloud.counter
       tfPointCloud.static_front_threshold].
  fold (tfPointCloud.processed self cloud).
  fold (tfPointCloud.ground_flags self cloud).
  unfold tfPointCloud.static_points, tfPointCloud.dynamic_points.
  assert (Hflags : List.length (tfPointCloud.ground_flags self cloud)
                   = List.length (tfPointCloud.processed self cloud))
    by apply length_is_ground.
  set (cloud_processed := tfPointCloud.processed self cloud) in *.
  set (flags := tfPointCloud.ground_flags self cloud) in *.
  pose proof (push_indices_indexed flags 0 [] []) as Hpush.
  cbv zeta in Hpush. rewrite Hflags in Hpush. specialize (Hpush Hlen).
  change (Z.of_nat 0) with 0%Z in Hpush. rewrite Hpush. cbn [app].
  eexists _, _, _. split; [reflexivity |]. split; [reflexivity |].
  split; [exact (copyPointCloud_indexed [] cloud_processed flags) |].
  split.
  - rewrite filter_negb_indexed.
    etransitivity;
      [exact (copyPointCloud_indexed [] cloud_processed (map negb flags)) |].
    symmetry. apply filter_negb_indexed.
  - rewrite <- map_app.
    etransitivity; [apply Permutation_map, filter_split_permutation |].
    rewrite map_fst_combine by now rewrite length_map, length_seq.
    reflexivity.
Qed.

(** X18: [preprocessing] sorts every position of the processed cloud into
    exactly one of the two index vectors: together they are a permutation
    of the positions.  The loop that flags the points runs in parallel on a
    vector of packed bits, where a store can be undone; so every point at a
    static index has [z < 0.02] or [x > static_front_threshold], every
    point that fails this test is at a dynamic index, and when no store is
    lost the static indices select, in order, exactly the points that pass
    the test and the dynamic indices the others.  The two index vectors
    select the points with a set flag and the points without. *)
Theorem preprocessing_partitions_cloud (self : tfPointCloud.t)
    (cloud : list PointXYZ.t) :
  (Z.of_nat (List.length (tfPointCloud.processed self cloud)) < 2 ^ 31)%Z ->
  let thr := tfPointCloud.static_front_threshold self in
  exists self' static_indices dynamic_indices,
    tfPointCloud.preprocessing self cloud [] []
    = (self', tfPointCloud.processed self cloud, static_indices,
       dynamic_indices)
    /\ Permutation (static_indices ++ dynamic_indices)
         (positions (List.length (tfPointCloud.processed self cloud)))
    /\ (List.length static_indices + List.length dynamic_indices
        = List.length (tfPointCloud.processed self cloud))%nat
    /\ copyPointCloud (tfPointCloud.processed self cloud) static_indices
       = tfPointCloud.static_points self cloud
    /\ copyPointCloud (tfPointCloud.processed self cloud) dynamic_indices
       = tfPointCloud.dynamic_points self cloud
    /\ Forall (fun p => ground_or_far thr p = true)
         (copyPointCloud (tfPointCloud.processed self cloud) static_indices)
    /\ (forall p : PointXYZ.t,
          In p (tfPointCloud.processed self cloud) ->
          ground_or_far thr p = false ->
          In p (copyPointCloud (tfPointCloud.processed self cloud)
                  dynamic_indices))
    /\ (tfPointCloud.no_store_lost self cloud ->
        copyPointCloud (tfPointCloud.processed self cloud) static_indices
        = filter (ground_or_far thr) (tfPointCloud.processed self cloud)
        /\ copyPointCloud (tfPointCloud.processed self cloud) dynamic_indices
           = filter (fun p => negb (ground_or_far thr p))
               (tfPointCloud.processed self cloud)).
Proof.
  intros Hlen thr. subst thr.
  destruct (preprocessing_run self cloud Hlen)
    as (self' & s & d & Hrun & _ & Hs & Hd & Hperm).
  exists self', s, d.
  split; [exact Hrun |]. split; [exact Hperm |].
  split.
  { apply Permutation_length in Hperm.
    rewrite length_app in Hperm. rewrite Hperm.
    unfold positions. now rewrite length_map, length_seq. }
  split; [exact Hs |]. split; [exact Hd |].
  rewrite Hs, Hd.
  unfold tfPointCloud.static_points, tfPointCloud.dynamic_points,
    tfPointCloud.ground_flags.
  split; [apply is_ground_sound |].
  split; [intros p; apply is_ground_rest |].
  intros Hall. rewrite (is_ground_no_loss _ _ _ Hall).
  apply filter_flags_of_test.
Qed.

Lemma preprocessing_self (self : tfPointCloud.t) (cloud : list PointXYZ.t)
    (static_indices dynamic_indices : list Z) :
  fst (fst (fst (tfPointCloud.preprocessing self cloud static_indices
                   dynamic_indices)))
  = tfPointCloud.mk (tfPointCloud.counter self) true
      (tfPointCloud.input_folder self) (tfPointCloud.matrix_in_use self)
      (tfPointCloud.static_front_threshold self)
      (tfPointCloud.previous_cloud self) (tfPointCloud.previous_dynamic self)
      (tfPointCloud.request self).
Proof.
  unfold tfPointCloud.preprocessing, tfPointCloud.matrix_in_use.
  destruct (push_indices _ _ _ _) as [s d].
  destruct self as [c [|] f m t pc pd r]; reflexivity.
Qed.

Lemma msgCallback_self (self : tfPointCloud.t)
    (msg : tfPointCloud.CloudMsg) :
  tfPointCloud.TransformFound = true ->
  exists static_cloud dynamic_cloud req published,
    tfPointCloud.msgCallback self msg
    = (tfPointCloud.mk (int_wrap (tfPointCloud.counter self + 1)) true
         (tfPointCloud.input_folder self) (tfPointCloud.matrix_in_use self)
         (tfPointCloud.static_front_threshold self)
         static_cloud dynamic_cloud req,
       Some published).
Proof.
  intros Hfound. unfold tfPointCloud.msgCallback. rewrite Hfound. cbn [negb].
  pose proof (preprocessing_self self (tfPointCloud.cloud_msg msg) [] [])
    as Hself.
  destruct (tfPointCloud.preprocessing self (tfPointCloud.cloud_msg msg) [] [])
    as [[[self' cp] s] d]. cbn [fst] in Hself. subst self'.
  cbn [tfPointCloud.counter tfPointCloud.load_transform
       tfPointCloud.input_folder tfPointCloud.sensor_base_link_trans
       tfPointCloud.static_front_threshold].
  eexists _, _, _, _. reflexivity.
Qed.

Lemma msgCallbacks_keep (self : tfPointCloud.t)
    (msgs : list tfPointCloud.CloudMsg) :
  tfPointCloud.TransformFound = true ->
  tfPointCloud.matrix_in_use (fst (tfPointCloud.msgCallbacks self msgs))
  = tfPointCloud.matrix_in_use self
  /\ (tfPointCloud.load_transform self = true ->
      tfPointCloud.load_transform (fst (tfPointCloud.msgCallbacks self msgs))
      = true).
Proof.
  intros Hfound. revert self.
  induction msgs as [| m msgs IH]; intros self; [split; trivial |].
  cbn [tfPointCloud.msgCallbacks].
  destruct (msgCallback_self self m Hfound) as (sc & dc & r & p & Hstep).
  rewrite Hstep.
  set (self1 := tfPointCloud.mk _ _ _ _ _ _ _ _).
  destruct (IH self1) as [IHm IHl].
  destruct (tfPointCloud.msgCallbacks self1 msgs) as [self2 rest].
  cbn [fst] in *. split.
  - rewrite IHm. reflexivity.
  - intros _. apply IHl. reflexivity.
Qed.

(** X19: the transform between the sensor and the base link is read from
    the file by the first message that is processed and never again: after
    any sequence of messages the matrix in use is the one the node would
    have used for its first message, and once a message has been processed
    [load_transform] is set. *)
Theorem transform_loaded_once (self : tfPointCloud.t)
    (msgs : list tfPointCloud.CloudMsg) :
  tfPointCloud.TransformFound = true ->
  tfPointCloud.matrix_in_use (fst (tfPointCloud.msgCallbacks self msgs))
  = tfPointCloud.matrix_in_use self
  /\ (msgs <> [] ->
      tfPointCloud.load_transform (fst (tfPointCloud.msgCallbacks self msgs))
      = true
      /\ tfPointCloud.sensor_base_link_trans
           (fst (tfPointCloud.msgCallbacks self msgs))
         = tfPointCloud.matrix_in_use self).
Proof.
  intros Hfound.
  destruct (msgCallbacks_keep self msgs Hfound) as [Hm _].
  split; [exact Hm |]. intros Hne.
  assert (Hl : tfPointCloud.load_transform
                 (fst (tfPointCloud.msgCallbacks self msgs)) = true).
  { destruct msgs as [| m msgs]; [contradiction |].
    cbn [tfPointCloud.msgCallbacks].
    destruct (msgCallback_self self m Hfound) as (sc & dc & r & p & Hstep).
    rewrite Hstep.
    set (self1 := tfPointCloud.mk _ _ _ _ _ _ _ _).
    destruct (msgCallbacks_keep self1 msgs Hfound) as [_ Hl1].
    destruct (tfPointCloud.msgCallbacks self1 msgs) as [self2 rest].
    cbn [fst] in *. apply Hl1. reflexivity. }
  split; [exact Hl |].
  rewrite <- Hm. unfold tfPointCloud.matrix_in_use at 1. now rewrite Hl.
Qed.

(** X20: while the parameter [TransformFound] is false the node ignores
    every message: it publishes nothing and stays as it is. *)
Theorem msgCallbacks_without_transform (self : tfPointCloud.t)
    (msgs : list tfPointCloud.CloudMsg) :
  tfPointCloud.TransformFound = false ->
  tfPointCloud.msgCallbacks self msgs = (self, []).
Proof.
  intros Hno. induction msgs as [| m msgs IH]; [reflexivity |].
  cbn [tfPointCloud.msgCallbacks]. unfold tfPointCloud.msgCallback.
  rewrite Hno. cbn [negb]. now rewrite IH.
Qed.

Lemma msgCallback_run (self : tfPointCloud.t)
    (msg : tfPointCloud.CloudMsg) :
  tfPointCloud.TransformFound = true ->
  (Z.of_nat
     (List.length
        (tfPointCloud.processed self (tfPointCloud.cloud_msg msg)))
   < 2 ^ 31)%Z ->
  tfPointCloud.msgCallback self msg
  = (tfPointCloud.mk (int_wrap (tfPointCloud.counter self + 1)) true
       (tfPointCloud.input_folder self) (tfPointCloud.matrix_in_use self)
       (tfPointCloud.static_front_threshold self)
       (tfPointCloud.static_points self (tfPointCloud.cloud_msg msg))
       (tfPointCloud.dynamic_points self (tfPointCloud.cloud_msg msg))
       (tfPointCloud.request_for self msg),
     Some (tfPointCloud.previous_cloud self
           ++ tfPointCloud.added_by_service self msg)).
Proof.
  intros Hfound Hlen. unfold tfPointCloud.msgCallback.
  rewrite Hfound. cbn [negb].
  destruct (preprocessing_run self (tfPointCloud.cloud_msg msg) Hlen)
    as (self' & s & d & Hrun & -> & Hs & Hd & _).
  rewrite Hrun, Hs, Hd.
  cbn [tfPointCloud.counter tfPointCloud.load_transform
       tfPointCloud.input_folder tfPointCloud.sensor_base_link_trans
       tfPointCloud.static_front_threshold tfPointCloud.previous_cloud].
  fold (tfPointCloud.request_for self msg).
  unfold tfPointCloud.added_by_service.
  destruct (50 <? _)%nat; [| now rewrite app_nil_r].
  destruct (tfPointCloud.call _); [reflexivity | now rewrite app_nil_r].
Qed.

(** X21: what the node does with a message once the transform is found: it
    publishes the static points it kept from the previous message followed
    by the points the service answers, the service being called, with the
    request prepared for this message, only when more than 50 points are
    potentially dynamic, and a failed call adding nothing; it then keeps
    the points of this message whose flag is set as static and the others
    as dynamic, and counts the message.  Every point kept as static has
    [z < 0.02] or [x > static_front_threshold]; when no store of the
    parallel loop is lost the points kept as static are exactly those. *)
Theorem msgCallback_publishes (self : tfPointCloud.t)
    (msg : tfPointCloud.CloudMsg) :
  tfPointCloud.TransformFound = true ->
  (Z.of_nat
     (List.length
        (tfPointCloud.processed self (tfPointCloud.cloud_msg msg)))
   < 2 ^ 31)%Z ->
  exists self' published,
    tfPointCloud.msgCallback self msg = (self', Some published)
    /\ published
       = tfPointCloud.previous_cloud self
         ++ tfPointCloud.added_by_service self msg
    /\ ((List.length
           (tfPointCloud.dynamic_points self (tfPointCloud.cloud_msg msg))
         <= 50)%nat ->
        published = tfPointCloud.previous_cloud self)
    /\ tfPointCloud.previous_cloud self'
       = tfPointCloud.static_points self (tfPointCloud.cloud_msg msg)
    /\ tfPointCloud.previous_dynamic self'
       = tfPointCloud.dynamic_points self (tfPointCloud.cloud_msg msg)
    /\ (List.length (tfPointCloud.previous_cloud self')
        + List.length (tfPointCloud.previous_dynamic self')
        = List.length
            (tfPointCloud.processed self (tfPointCloud.cloud_msg msg)))%nat
    /\ tfPointCloud.frame_id (tfPointCloud.request self')
       = tfPointCloud.counter self
    /\ tfPointCloud.counter self'
       = int_wrap (tfPointCloud.counter self + 1)
    /\ ((50 < List.length
                (tfPointCloud.dynamic_points self
                   (tfPointCloud.cloud_msg msg)))%nat ->
        match tfPointCloud.call (tfPointCloud.request_for self msg) with
        | Some cloud_static =>
            published = tfPointCloud.previous_cloud self ++ cloud_static
        | None => published = tfPointCloud.previous_cloud self
        end)
    /\ tfPointCloud.request self' = tfPointCloud.request_for self msg
    /\ Forall
         (fun p =>
            ground_or_far (tfPointCloud.static_front_threshold self) p = true)
         (tfPointCloud.previous_cloud self')
    /\ (tfPointCloud.no_store_lost self (tfPointCloud.cloud_msg msg) ->
        tfPointCloud.previous_cloud self'
        = filter (ground_or_far (tfPointCloud.static_front_threshold self))
            (tfPointCloud.processed self (tfPointCloud.cloud_msg msg))
        /\ tfPointCloud.previous_dynamic self'
           = filter
               (fun p =>
                  negb (ground_or_far
                          (tfPointCloud.static_front_threshold self) p))
               (tfPointCloud.processed self (tfPointCloud.cloud_msg msg))).
Proof.
  intros Hfound Hlen. rewrite (msgCallback_run self msg Hfound Hlen).
  eexists _, _. split; [reflexivity |]. split; [reflexivity |].
  split.
  { intros Hfew. unfold tfPointCloud.added_by_service.
    destruct (Nat.ltb_spec 50
                (List.length
                   (tfPointCloud.dynamic_points self
                      (tfPointCloud.cloud_msg msg)))) as [Hgt | _]; [lia |].
    apply app_nil_r. }
  cbn [tfPointCloud.previous_cloud tfPointCloud.previous_dynamic
       tfPointCloud.request tfPointCloud.frame_id tfPointCloud.counter
       tfPointCloud.request_for].
  split; [reflexivity |]. split; [reflexivity |].
  split.
  { unfold tfPointCloud.static_points, tfPointCloud.dynamic_points.
    apply length_flags_split. symmetry. apply length_is_ground. }
  split; [reflexivity |]. split; [reflexivity |].
  split.
  { intros Hmany. unfold tfPointCloud.added_by_service.
    destruct (Nat.ltb_spec 50
                (List.length
                   (tfPointCloud.dynamic_points self
                      (tfPointCloud.cloud_msg msg)))) as [_ | Hle]; [| lia].
    destruct (tfPointCloud.call _); [reflexivity | apply app_nil_r]. }
  split; [reflexivity |].
  unfold tfPointCloud.static_points, tfPointCloud.dynamic_points,
    tfPointCloud.ground_flags.
  split; [apply is_ground_sound |].
  intros Hall. rewrite (is_ground_no_loss _ _ _ Hall).
  apply filter_flags_of_test.
Qed.

(** X22: once the transform is found every message is counted and answered
    by one published cloud: after [n] messages the counter has advanced by
    [n] (as long as it stays an [int]) and [n] clouds have been
    published. *)
Theorem msgCallbacks_count (self : tfPointCloud.t)
    (msgs : list tfPointCloud.CloudMsg) :
  tfPointCloud.TransformFound = true ->
  (- 2 ^ 31 <= tfPointCloud.counter self)%Z ->
  (tfPointCloud.counter self + Z.of_nat (List.length msgs) < 2 ^ 31)%Z ->
  tfPointCloud.counter (fst (tfPointCloud.msgCallbacks self msgs))
  = (tfPointCloud.counter self + Z.of_nat (List.length msgs))%Z
  /\ List.length (snd (tfPointCloud.msgCallbacks self msgs))
     = List.length msgs.
Proof.
  intros Hfound. revert self.
  induction msgs as [| m msgs IH]; intros self Hlo Hhi.
  - cbn. split; [lia | reflexivity].
  - cbn [tfPointCloud.msgCallbacks List.length] in *.
    destruct (msgCallback_self self m Hfound) as (sc & dc & r & p & Hstep).
    rewrite Hstep. rewrite int_wrap_small by lia.
    set (self1 := tfPointCloud.mk _ _ _ _ _ _ _ _).
    destruct (IH self1) as [IHc IHn]; [cbn; lia | cbn; lia |].
    destruct (tfPointCloud.msgCallbacks self1 msgs) as [self2 rest].
    cbn [fst snd List.length] in *. split; [rewrite IHc; cbn; lia | lia].
Qed.

(** X23: the published cloud lags one message behind: of two messages in a
    row, the cloud published for the second starts with the points of the
    first that were flagged static, all of which have [z < 0.02] or
    [x > static_front_threshold], followed by what the service answers for
    the second; the second message is processed with the matrix of the
    first, and its flagged points are kept for the third. *)
Theorem published_cloud_lags (self : tfPointCloud.t)
    (m1 m2 : tfPointCloud.CloudMsg) :
  tfPointCloud.TransformFound = true ->
  (Z.of_nat
     (List.length (tfPointCloud.processed self (tfPointCloud.cloud_msg m1)))
   < 2 ^ 31)%Z ->
  (Z.of_nat
     (List.length (tfPointCloud.processed self (tfPointCloud.cloud_msg m2)))
   < 2 ^ 31)%Z ->
  exists self1 self2,
    tfPointCloud.msgCallback self m1
    = (self1,
       Some (tfPointCloud.previous_cloud self
             ++ tfPointCloud.added_by_service self m1))
    /\ tfPointCloud.msgCallbacks self [m1; m2]
       = (self2,
          [tfPointCloud.previous_cloud self
           ++ tfPointCloud.added_by_service self m1;
           tfPointCloud.static_points self (tfPointCloud.cloud_msg m1)
           ++ tfPointCloud.added_by_service self1 m2])
    /\ tfPointCloud.previous_cloud self2
       = tfPointCloud.static_points self1 (tfPointCloud.cloud_msg m2)
    /\ tfPointCloud.processed self1 (tfPointCloud.cloud_msg m2)
       = tfPointCloud.processed self (tfPointCloud.cloud_msg m2)
    /\ tfPointCloud.counter self1
       = int_wrap (tfPointCloud.counter self + 1)
    /\ Forall
         (fun p =>
            ground_or_far (tfPointCloud.static_front_threshold self) p = true)
         (tfPointCloud.static_points self (tfPointCloud.cloud_msg m1)).
Proof.
  intros Hfound H1 H2.
  cbn [tfPointCloud.msgCallbacks].
  rewrite (msgCallback_run self m1 Hfound H1).
  set (self1 := tfPointCloud.mk _ _ _ _ _ _ _ _).
  assert (H2' : (Z.of_nat
                   (List.length
                      (tfPointCloud.processed self1
                         (tfPointCloud.cloud_msg m2))) < 2 ^ 31)%Z)
    by exact H2.
  rewrite (msgCallback_run self1 m2 Hfound H2').
  eexists self1, _. split; [reflexivity |]. split; [reflexivity |].
  split; [reflexivity |]. split; [reflexivity |]. split; [reflexivity |].
  unfold tfPointCloud.static_points, tfPointCloud.ground_flags.
  apply is_ground_sound.
Qed.

End NodeProperties.

(** ** Scenarios

    The properties at concrete inputs, on the configuration of [Bench]. *)

Import Bench.

Lemma Rabs_diff_zero (a : R) : Rabs (a - a) = 0.
Proof. replace (a - a) with 0 by ring. apply Rabs_R0. Qed.

Lemma hypot_along_x (a b c : R) : hypot (a - b) (c - c) = Rabs (a - b).
Proof. replace (c - c) with 0 by ring. apply hypot_0_r. Qed.

Lemma bench_not_vetoed (at_pose reference : Pose.t) (goal : option Pose.t)
    (guard : ReplanningGuard.t) :
  ~ vetoed (state at_pose reference goal [] guard).
Proof. intros [o [[] _]]. Qed.

Lemma bench_deviates (goal : option Pose.t) (guard : ReplanningGuard.t) :
  deviates (state (pose2d 0 0 0) (pose2d 0.6 0 0) goal [] guard)
    (pose2d 0.6 0 0).
Proof.
  left. cbn. rewrite hypot_along_x.
  unfold Rabs. destruct (Rcase_abs _); lra.
Qed.

Lemma bench_reference (at_pose reference : Pose.t) (goal : option Pose.t)
    (guard : ReplanningGuard.t) :
  let st := state at_pose reference goal [] guard in
  MotionPlanner.computeReference (stamp_of st) (motion_planner_ st)
  = (reference, twist2d 0 0 0,
     mkPlanner [] (Time.mk 0 0) reference (twist2d 0 0 0)).
Proof. reflexivity. Qed.

Lemma bench_within_tolerance (guard : ReplanningGuard.t) :
  within_tolerance
    (state (pose2d 1.02 0 0) (pose2d 1 0 0) (Some (pose2d 1 0 0)) [] guard)
    (pose2d 1 0 0).
Proof.
  split; cbn.
  - rewrite hypot_along_x. unfold Rabs. destruct (Rcase_abs _); lra.
  - rewrite Rabs_diff_zero. lra.
Qed.

Lemma bench_differs : differs (pose2d 1 0 0) (pose2d 2 0 0).
Proof.
  left. cbn. rewrite hypot_along_x.
  unfold Rabs. destruct (Rcase_abs _); lra.
Qed.

Lemma bench_same : ~ differs (pose2d 1 0 0) (pose2d 1 0 0).
Proof.
  intros [H | H]; cbn in H.
  - rewrite hypot_along_x, Rabs_diff_zero in H. lra.
  - rewrite Rabs_diff_zero in H. lra.
Qed.

(** C1 at a concrete input: the arm-skin observer reports unsafe. *)
Lemma computeVelocityCommands_veto_witness :
  let st :=
    state (pose2d 0 0 0) (pose2d 0.6 0 0) (Some (pose2d 1 0 0))
      [mkObserver "scan_safety_observer" true;
       mkObserver "arm_skin_observer" false]
      (ReplanningGuard.mk true true) in
  vetoed st
  /\ exists cmd',
       computeVelocityCommands (twist2d 0.3 0.1 0.2) st
       = ([Lock; Unlock], Some ((true, cmd'), st))
       /\ planar cmd' = (0, 0, 0).
Proof.
  intros st.
  assert (Hv : vetoed st).
  { exists (mkObserver "arm_skin_observer" false).
    split; [right; left; reflexivity | reflexivity]. }
  split; [exact Hv |].
  destruct (computeVelocityCommands_veto st (twist2d 0.3 0.1 0.2) Hv)
    as (cmd' & Hrun & Hzero & _).
  exists cmd'. split; assumption.
Defined.




(** C3 at a concrete input: the raw twist with linear (1.2, 0) under the
    default bounds 0.5 and 0.7. *)
Lemma safeVelocityCommands_clamps_witness :
  let st :=
    state (pose2d 0 0 0) (pose2d 0 0 0) None []
      (ReplanningGuard.mk true true) in
  0 <= max_safe_lin_velocity (params_ st)
  /\ 0 <= max_safe_ang_velocity (params_ st)
  /\ exists safe_twist,
       safeVelocityCommands st (twist2d 1.2 0 0) = Some safe_twist
       /\ lin_speed safe_twist <= 0.5
       /\ Vector3.x (Twist.linear safe_twist) = 0.5
       /\ Vector3.y (Twist.linear safe_twist) = 0.
Proof.
  intros st.
  assert (Hl : 0 <= max_safe_lin_velocity (params_ st)) by (cbn; lra).
  assert (Ha : 0 <= max_safe_ang_velocity (params_ st)) by (cbn; lra).
  split; [exact Hl |]. split; [exact Ha |].
  destruct (safeVelocityCommands_clamps st (twist2d 1.2 0 0) Hl Ha)
    as (safe_twist & Hrun & _ & _ & Hbound & _ & _ & _ & _ & Hex).
  exists safe_twist.
  destruct (Hex eq_refl eq_refl eq_refl) as [Hx Hy].
  repeat split; assumption.
Defined.

(** C3 as stated fails: the claim speaks of every input twist and puts no
    condition on the configured bounds, which [reconfigureCallback] takes
    over as they come.  Under the linear bound -1 the zero twist passes the
    test [twist_lin_magnitude > max_safe_lin_velocity] and is divided by
    its zero magnitude, and the twist with linear (1, 0) comes out as
    (-1, 0), its direction reversed and its speed above the bound; under
    the bounds 0 and 0 the twist with linear (1, 0) and angular 1 comes out
    as zero, with neither direction nor sign left. *)
Lemma safeVelocityCommands_unchecked_bounds :
  let st := fun lin ang : R =>
    mkState
      (mkParams "/odom" 0.05 0.05 lin ang 0.5 1.0 [] false)
      (stamped (pose2d 0 0 0)) (TwistStamped.mk header0 (twist2d 0 0 0))
      None 0%nat (mkPlanner [] (Time.mk 0 0) (pose2d 0 0 0) (twist2d 0 0 0))
      ([] : list Observer) "map" (ReplanningGuard.mk true true) in
  safeVelocityCommands (st (-1) 0.7) (twist2d 0 0 0) = None
  /\ (exists safe_twist,
        safeVelocityCommands (st (-1) 0.7) (twist2d 1 0 0) = Some safe_twist
        /\ lin_speed (twist2d 1 0 0) <> 0
        /\ Vector3.x (Twist.linear safe_twist) = -1
        /\ Vector3.y (Twist.linear safe_twist) = 0
        /\ ~ lin_speed safe_twist
             <= max_safe_lin_velocity (params_ (st (-1) 0.7)))
  /\ (exists safe_twist,
        safeVelocityCommands (st 0 0) (twist2d 1 0 1) = Some safe_twist
        /\ lin_speed (twist2d 1 0 1) <> 0
        /\ Vector3.x (Twist.linear safe_twist) = 0
        /\ Vector3.y (Twist.linear safe_twist) = 0
        /\ Vector3.z (Twist.angular safe_twist) = 0).
Proof.
  intros st.
  assert (H0 : hypot 0 0 = 0) by (rewrite hypot_0_r; apply Rabs_R0).
  assert (H1 : hypot 1 0 = 1)
    by (rewrite hypot_0_r; apply Rabs_pos_eq; lra).
  split; [| split].
  - unfold safeVelocityCommands, fdiv. cbn. rewrite H0.
    destruct (Rgt_dec 0 (-1)) as [_ | Hn]; [| lra].
    destruct (Req_dec_T 0 0) as [_ | Hn]; [reflexivity | lra].
  - unfold safeVelocityCommands, fdiv, lin_speed. cbn. rewrite H1, Rabs_R0.
    destruct (Rgt_dec 1 (-1)) as [_ | Hn]; [| lra].
    destruct (Req_dec_T 1 0) as [Hn | _]; [lra |].
    destruct (Rgt_dec 0 0.7) as [Hn | _]; [lra |].
    eexists. split; [reflexivity |]. cbn.
    split; [lra |]. split; [lra |]. split; [lra |].
    pose proof (hypot_nonneg (-1 * 1 / 1) (-1 * 0 / 1)). lra.
  - unfold safeVelocityCommands, fdiv, lin_speed, copysign. cbn.
    rewrite H1, Rabs_R1, Rabs_R0.
    destruct (Rgt_dec 1 0) as [_ | Hn]; [| lra].
    destruct (Req_dec_T 1 0) as [Hn | _]; [lra |].
    destruct (Rlt_dec 1 0) as [Hn | _]; [lra |].
    eexists. split; [reflexivity |]. cbn.
    split; [lra |]. split; [lra |]. split; [lra | reflexivity].
Qed.

(** C4 fails on the code: with the robot heading 0, where the rotation is
    the identity, [twistToGlobalFrame] maps the robot-frame twist with linear
    (0, 1) to linear (0, 0); the linear speed drops from 1 to 0 and
    [twistToRobotFrame] does not bring the twist back. *)
Theorem twistToGlobalFrame_loses_lateral_velocity :
  let st :=
    state (pose2d 0 0 0) (pose2d 0 0 0) None []
      (ReplanningGuard.mk true true) in
  let robot_twist := twist2d 0 1 0 in
  let map_twist := twistToGlobalFrame st robot_twist Twist_default in
  planar map_twist = (0, 0, 0)
  /\ lin_speed robot_twist = 1
  /\ lin_speed map_twist = 0
  /\ planar (twistToRobotFrame st map_twist Twist_default) = (0, 0, 0)
  /\ planar (twistToRobotFrame st map_twist Twist_default)
     <> planar robot_twist.
Proof.
  intros st robot_twist map_twist.
  assert (Hmap : map_twist = Twist_default).
  { unfold map_twist, twistToGlobalFrame, Twist_default. cbn.
    rewrite cos_0, sin_0. unfold set_angular_z, set_linear_y, set_linear_x.
    cbn. repeat f_equal; ring. }
  assert (Hback : planar (twistToRobotFrame st map_twist Twist_default)
                  = (0, 0, 0)).
  { rewrite twistToRobotFrame_planar, Hmap. cbn. f_equal. f_equal; ring. }
  rewrite Hback, Hmap.
  repeat split.
  - unfold lin_speed, hypot. cbn.
    replace (0 * 0 + 1 * 1) with (1 * 1) by ring.
    apply sqrt_square. lra.
  - unfold lin_speed. cbn. rewrite hypot_0_r. apply Rabs_R0.
  - cbn. intros H. injection H as H. lra.
Qed.

(** C5 at a concrete input: the goal (1.0, 0.0, 0), the tolerances 0.05 and
    the robot at (1.02, 0.0, 0): the first call answers true, the next two
    false. *)
Lemma isGoalReached_true_once_witness :
  let st :=
    state (pose2d 1.02 0 0) (pose2d 1 0 0) (Some (pose2d 1 0 0)) []
      (ReplanningGuard.mk true true) in
  current_goal_ st = Some (pose2d 1 0 0)
  /\ within_tolerance st (pose2d 1 0 0)
  /\ outcome (isGoalReached st) = Some (true, after_reached st)
  /\ current_goal_ (after_reached st) = None
  /\ outcome (polls 2 (after_reached st))
     = Some ([false; false], after_reached st).
Proof.
  intros st.
  split; [reflexivity |].
  split; [apply bench_within_tolerance |].
  destruct (isGoalReached_true_once st) as [_ Hreached].
  destruct (Hreached (pose2d 1 0 0) eq_refl (bench_within_tolerance _))
    as (Hrun & Hgoal & _ & _ & Hpolls).
  split; [exact Hrun |]. split; [exact Hgoal | exact (Hpolls 2%nat)].
Defined.

(** C6 at concrete inputs: with the goal (1, 0, 0), a plan ending at
    (2, 0, 0) is a new goal and a plan ending at (1, 0, 0) is an update. *)
Lemma setPlan_new_goal_iff_differs_witness :
  let st :=
    state (pose2d 0 0 0) (pose2d 0 0 0) (Some (pose2d 1 0 0)) []
      (ReplanningGuard.mk true true) in
  let far := [stamped (pose2d 0.5 0 0); stamped (pose2d 2 0 0)] in
  let near := [stamped (pose2d 0.5 0 0); stamped (pose2d 1 0 0)] in
  ReplanningGuard.replanningFlag (replanning_guard st) = true
  /\ current_goal_ st = Some (pose2d 1 0 0)
  /\ setPlan far st
     = (new_goal_trace,
        Some (true, after_new_goal far (stamped (pose2d 2 0 0)) st))
  /\ current_goal_ (after_new_goal far (stamped (pose2d 2 0 0)) st)
     = Some (pose2d 2 0 0)
  /\ setPlan near st = (update_trace, Some (true, after_update near st))
  /\ current_goal_ (after_update near st) = Some (pose2d 1 0 0).
Proof.
  intros st far near.
  split; [reflexivity |]. split; [reflexivity |].
  destruct (setPlan_new_goal_iff_differs st (pose2d 1 0 0)
              (stamped (pose2d 0.5 0 0)) [stamped (pose2d 2 0 0)]
              eq_refl eq_refl) as (Hnew & _).
  destruct (Hnew bench_differs) as (Hrun & Hgoal & _).
  split; [exact Hrun |]. split; [exact Hgoal |].
  destruct (setPlan_new_goal_iff_differs st (pose2d 1 0 0)
              (stamped (pose2d 0.5 0 0)) [stamped (pose2d 1 0 0)]
              eq_refl eq_refl) as (_ & Hupd & _).
  destruct (Hupd bench_same) as (Hrun' & Hgoal' & _).
  split; [exact Hrun' | exact Hgoal'].
Defined.

(** C8 at a concrete input: no replanning owed. *)
Lemma setPlan_not_owed_witness :
  let st :=
    state (pose2d 0 0 0) (pose2d 0 0 0) (Some (pose2d 1 0 0)) []
      (ReplanningGuard.mk true false) in
  ReplanningGuard.replanningFlag (replanning_guard st) = false
  /\ setPlan [stamped (pose2d 2 0 0)] st = ([], Some (true, st)).
Proof.
  intros st. split; [reflexivity |].
  exact (setPlan_not_owed st (stamped (pose2d 2 0 0)) [] eq_refl).
Defined.

(** C10 at a concrete input: replanning owed and no goal. *)
Lemma setPlan_without_goal_witness :
  let st :=
    state (pose2d 0 0 0) (pose2d 0 0 0) None []
      (ReplanningGuard.mk true true) in
  let plan := [stamped (pose2d 0.5 0 0); stamped (pose2d 2 0 0)] in
  ReplanningGuard.replanningFlag (replanning_guard st) = true
  /\ current_goal_ st = None
  /\ setPlan plan st
     = (new_goal_trace,
        Some (true, after_new_goal plan (stamped (pose2d 2 0 0)) st))
  /\ current_goal_ (after_new_goal plan (stamped (pose2d 2 0 0)) st)
     = Some (pose2d 2 0 0).
Proof.
  intros st plan.
  split; [reflexivity |]. split; [reflexivity |].
  destruct (setPlan_without_goal st (stamped (pose2d 0.5 0 0))
              [stamped (pose2d 2 0 0)] eq_refl eq_refl)
    as (_ & Hrun & Hgoal & _).
  split; [exact Hrun | exact Hgoal].
Defined.

(** C9 as stated fails: [isGoalReached] and [setPlan] read and write the
    robot pose and the goal without taking the state lock, and [odomCallback]
    waits for the frame transform while it holds the lock. *)
Lemma state_lock_discipline_broken :
  let st :=
    state (pose2d 0 0 0) (pose2d 0 0 0) (Some (pose2d 1 0 0)) []
      (ReplanningGuard.mk true true) in
  let odom := Odometry.mk header0 (pose2d 0.1 0 0) (twist2d 0 0 0) in
  disciplined false (trace (isGoalReached st)) = false
  /\ hd_error (unguarded false (trace (isGoalReached st)))
     = Some (Read current_goal)
  /\ disciplined false (trace (setPlan [stamped (pose2d 2 0 0)] st)) = false
  /\ hd_error (unguarded false (trace (setPlan [stamped (pose2d 2 0 0)] st)))
     = Some (Read robot_pose)
  /\ disciplined false (trace (odomCallback odom st)) = false
  /\ blocked_under_lock false (trace (odomCallback odom st))
     = [waitForTransform_].
Proof.
  intros st odom.
  destruct (isGoalReached_undisciplined st) as [Hg1 Hg2].
  destruct (setPlan_undisciplined st (stamped (pose2d 2 0 0)) [] eq_refl)
    as [Hs1 Hs2].
  rewrite (odomCallback_trace st odom).
  repeat split; assumption || reflexivity.
Qed.

(** ** Further scenarios *)

Lemma bench_within (at_x : R) (reference : Pose.t) (goal : option Pose.t)
    (guard : ReplanningGuard.t) :
  Rabs (at_x - 1) <= 0.05 ->
  within_tolerance (state (pose2d at_x 0 0) reference goal [] guard)
    (pose2d 1 0 0).
Proof.
  intros H. split; cbn.
  - now rewrite hypot_along_x.
  - rewrite Rabs_diff_zero. lra.
Qed.

Lemma bench_same_pose (x : R) : ~ differs (pose2d x 0 0) (pose2d x 0 0).
Proof.
  intros [H | H]; cbn in H.
  - rewrite hypot_along_x, Rabs_diff_zero in H. lra.
  - rewrite Rabs_diff_zero in H. lra.
Qed.

Lemma bench_on_track (goal : option Pose.t) (guard : ReplanningGuard.t) :
  ~ deviates (state (pose2d 0 0 0) (pose2d 0.1 0 0) goal [] guard)
      (pose2d 0.1 0 0).
Proof.
  intros [H | H]; cbn in H.
  - rewrite hypot_along_x in H. unfold Rabs in H.
    destruct (Rcase_abs _); lra.
  - rewrite Rabs_diff_zero in H. lra.
Qed.

(** A tick of the bench that follows the trajectory. *)
Lemma bench_tracking_tick (goal : option Pose.t) (guard : ReplanningGuard.t)
    (cmd : Twist.t) :
  let st := state (pose2d 0 0 0) (pose2d 0.1 0 0) goal [] guard in
  exists cmd',
    computeVelocityCommands cmd st
    = (tracking_trace,
       Some ((true, cmd'),
             after_tracking
               (mkPlanner [] (Time.mk 0 0) (pose2d 0.1 0 0) (twist2d 0 0 0))
               1%nat st)).
Proof.
  intros st.
  assert (Hl : 0 <= max_safe_lin_velocity (params_ st)) by (cbn; lra).
  eexists.
  apply (computeVelocityCommands_tracking_run st cmd (pose2d 0.1 0 0)
           (twist2d 0 0 0)
           (mkPlanner [] (Time.mk 0 0) (pose2d 0.1 0 0) (twist2d 0 0 0))
           (twist2d 0 0 0) 1%nat).
  - apply bench_not_vetoed.
  - apply bench_reference.
  - apply bench_on_track.
  - reflexivity.
  - apply (safeVelocityCommands_components st _ Hl).
Qed.

(** X1 at a concrete input: a tick of the bench that follows the
    trajectory. *)
Lemma computeVelocityCommands_command_within_bounds_witness :
  let st :=
    state (pose2d 0 0 0) (pose2d 0.1 0 0) (Some (pose2d 1 0 0)) []
      (ReplanningGuard.mk true true) in
  0 <= max_safe_lin_velocity (params_ st)
  /\ 0 <= max_safe_ang_velocity (params_ st)
  /\ exists cmd' st',
       outcome (computeVelocityCommands (twist2d 9 9 9) st)
       = Some ((true, cmd'), st')
       /\ lin_speed cmd' <= 0.5
       /\ ang_speed cmd' <= 0.7.
Proof.
  intros st.
  assert (Hl : 0 <= max_safe_lin_velocity (params_ st)) by (cbn; lra).
  assert (Ha : 0 <= max_safe_ang_velocity (params_ st)) by (cbn; lra).
  split; [exact Hl |]. split; [exact Ha |].
  destruct (bench_tracking_tick (Some (pose2d 1 0 0))
              (ReplanningGuard.mk true true) (twist2d 9 9 9))
    as [cmd' Hrun].
  exists cmd'. eexists.
  assert (Hout : outcome (computeVelocityCommands (twist2d 9 9 9) st)
                 = Some ((true, cmd'),
                         after_tracking
                           (mkPlanner [] (Time.mk 0 0) (pose2d 0.1 0 0)
                              (twist2d 0 0 0)) 1%nat st)).
  { fold st in Hrun. now rewrite Hrun. }
  split; [exact Hout |].
  exact (computeVelocityCommands_command_within_bounds st _ _ _ Hl Ha Hout).
Defined.

(** X2 at a concrete input: the tick of the bench that finds the robot off
    the trajectory. *)
Lemma computeVelocityCommands_false_iff_deviation_witness :
  let st :=
    state (pose2d 0 0 0) (pose2d 0.6 0 0) (Some (pose2d 1 0 0)) []
      (ReplanningGuard.mk true true) in
  exists st',
    outcome (computeVelocityCommands (twist2d 9 9 9) st)
    = Some ((false, twist2d 9 9 9), st')
    /\ current_goal_ st' = None.
Proof.
  intros st. eexists.
  assert (Hout : outcome (computeVelocityCommands (twist2d 9 9 9) st)
                 = Some ((false, twist2d 9 9 9),
                         after_deviation
                           (mkPlanner [] (Time.mk 0 0) (pose2d 0.6 0 0)
                              (twist2d 0 0 0)) st)).
  { now rewrite (computeVelocityCommands_deviation_run st (twist2d 9 9 9)
                   (pose2d 0.6 0 0) (twist2d 0 0 0) _
                   (bench_not_vetoed _ _ _ _) (bench_reference _ _ _ _)
                   (bench_deviates _ _)). }
  split; [exact Hout |].
  destruct (computeVelocityCommands_false_iff_deviation st _ _ _ _ Hout)
    as [_ Hfalse].
  exact (proj2 (Hfalse eq_refl)).
Defined.

(** X3 at a concrete input: a tick of the bench that follows the
    trajectory. *)
Lemma computeVelocityCommands_frame_witness :
  let st :=
    state (pose2d 0 0 0) (pose2d 0.1 0 0) (Some (pose2d 1 0 0)) []
      (ReplanningGuard.mk true true) in
  exists cmd' st',
    outcome (computeVelocityCommands (twist2d 9 9 9) st)
    = Some ((true, cmd'), st')
    /\ current_goal_ st' = Some (pose2d 1 0 0)
    /\ replanning_guard st' = ReplanningGuard.mk true true.
Proof.
  intros st.
  destruct (bench_tracking_tick (Some (pose2d 1 0 0))
              (ReplanningGuard.mk true true) (twist2d 9 9 9))
    as [cmd' Hrun].
  exists cmd'. eexists.
  assert (Hout : outcome (computeVelocityCommands (twist2d 9 9 9) st)
                 = Some ((true, cmd'),
                         after_tracking
                           (mkPlanner [] (Time.mk 0 0) (pose2d 0.1 0 0)
                              (twist2d 0 0 0)) 1%nat st)).
  { fold st in Hrun. now rewrite Hrun. }
  split; [exact Hout |].
  destruct (computeVelocityCommands_frame st _ _ _ _ Hout)
    as (_ & _ & _ & _ & _ & Htrue).
  exact (Htrue eq_refl).
Defined.

(** X5 at a concrete input: an odometry message in a frame that the
    transform provider of the bench does not know. *)
Lemma odomCallback_transform_failure_witness :
  let st :=
    state (pose2d 0 0 0) (pose2d 0 0 0) (Some (pose2d 1 0 0)) []
      (ReplanningGuard.mk true true) in
  let odom :=
    Odometry.mk (Header.mk (Time.mk 1 0) "odom") (pose2d 0.1 0 0)
      (twist2d 0.2 0 0) in
  outcome (odomCallback odom st) = Some (tt, st).
Proof.
  intros st odom.
  assert (Hno : TransformListener.transformPose (global_frame_id st)
                  (PoseStamped.mk (Odometry.header odom)
                     (Odometry.pose odom)) = None) by reflexivity.
  now rewrite (odomCallback_transform_failure st odom Hno).
Defined.

(** X6 at a concrete input: an odometry message in the map frame. *)
Lemma odomCallback_transform_success_witness :
  let st :=
    state (pose2d 0 0 0) (pose2d 0 0 0) (Some (pose2d 1 0 0)) []
      (ReplanningGuard.mk true true) in
  let odom :=
    Odometry.mk (Header.mk (Time.mk 1 0) "map") (pose2d 0.1 0 0)
      (twist2d 0.2 0 0) in
  exists st',
    outcome (odomCallback odom st) = Some (tt, st')
    /\ robot_pose_ st'
       = PoseStamped.mk (Header.mk (Time.mk 1 0) "map") (pose2d 0.1 0 0)
    /\ current_goal_ st' = Some (pose2d 1 0 0).
Proof.
  intros st odom.
  assert (Hyes : TransformListener.transformPose (global_frame_id st)
                   (PoseStamped.mk (Odometry.header odom)
                      (Odometry.pose odom))
                 = Some (PoseStamped.mk (Header.mk (Time.mk 1 0) "map")
                           (pose2d 0.1 0 0))) by reflexivity.
  destruct (odomCallback_transform_success st odom
              (PoseStamped.mk (Header.mk (Time.mk 1 0) "map")
                 (pose2d 0.1 0 0)) Hyes)
    as (st' & Hrun & Hpose & _ & _ & _ & _ & _ & Hgoal & _).
  exists st'. repeat split; assumption.
Defined.

(** X9 at a concrete input: the twist with linear (1.2, 0) under the default
    bounds. *)
Lemma safeVelocityCommands_idempotent_witness :
  let st :=
    state (pose2d 0 0 0) (pose2d 0 0 0) None []
      (ReplanningGuard.mk true true) in
  exists safe_twist,
    safeVelocityCommands st (twist2d 1.2 0 0) = Some safe_twist
    /\ safeVelocityCommands st safe_twist = Some safe_twist.
Proof.
  intros st.
  assert (Hl : 0 <= max_safe_lin_velocity (params_ st)) by (cbn; lra).
  assert (Ha : 0 <= max_safe_ang_velocity (params_ st)) by (cbn; lra).
  eexists. split.
  - exact (safeVelocityCommands_components st (twist2d 1.2 0 0) Hl).
  - exact (safeVelocityCommands_idempotent st (twist2d 1.2 0 0) _ Hl Ha
             (safeVelocityCommands_components st (twist2d 1.2 0 0) Hl)).
Defined.

(** X11 at a concrete input: the same plan handed over twice. *)
Lemma setPlan_again_updates_witness :
  let st :=
    state (pose2d 0 0 0) (pose2d 0 0 0) None []
      (ReplanningGuard.mk true true) in
  let plan := [stamped (pose2d 0.5 0 0); stamped (pose2d 2 0 0)] in
  exists st1,
    outcome (setPlan plan st) = Some (true, st1)
    /\ setPlan plan st1 = (update_trace, Some (true, after_update plan st1)).
Proof.
  intros st plan.
  destruct (setPlan_again_updates st (stamped (pose2d 0.5 0 0))
              (stamped (pose2d 0.5 0 0)) [stamped (pose2d 2 0 0)]
              [stamped (pose2d 2 0 0)] eq_refl eq_refl (bench_same_pose 2))
    as (st1 & Hfirst & Hsecond & _).
  exists st1. split; assumption.
Defined.

(** X12 at a concrete input: a plan that ends at (1, 0) handed over while
    the robot stands at (1.02, 0). *)
Lemma setPlan_then_isGoalReached_witness :
  let st :=
    state (pose2d 1.02 0 0) (pose2d 1 0 0) None []
      (ReplanningGuard.mk true true) in
  exists st1 st2,
    outcome (setPlan [stamped (pose2d 1 0 0)] st) = Some (true, st1)
    /\ outcome (isGoalReached st1) = Some (true, st2)
    /\ current_goal_ st2 = None.
Proof.
  intros st.
  assert (Hin : within_tolerance st (pose2d 1 0 0)).
  { apply bench_within. unfold Rabs. destruct (Rcase_abs _); lra. }
  destruct (setPlan_then_isGoalReached st (stamped (pose2d 1 0 0)) []
              eq_refl eq_refl Hin)
    as (st1 & st2 & Hplan & _ & Hreached & Hgoal).
  exists st1, st2. repeat split; assumption.
Defined.


(** X16 at concrete inputs: a line with seven fields and a line with
    three. *)
Lemma fields_of_line_witness :
  fields 7 "0.1,0.2,0.3,0,0,0,1"
  = ["0.1"; "0.2"; "0.3"; "0"; "0"; "0"; "1"]%string
  /\ fields 7 "0.1,0.2,0.3"
     = ["0.1"; "0.2"; "0.3"; "0.3"; "0.3"; "0.3"; "0.3"]%string.
Proof.
  split.
  - exact (proj1 (proj2 (fields_of_line "0.1"
                           ["0.2"; "0.3"; "0"; "0"; "0"; "1"]%string
                           eq_refl)) eq_refl).
  - exact (proj2 (proj2 (proj2 (fields_of_line "0.1" ["0.2"; "0.3"]%string
                                  eq_refl))) ltac:(cbn; lia)).
Defined.

Lemma node_bench_bound (found : bool) (self : tfPointCloud.t) :
  (Z.of_nat
     (List.length
        (tfPointCloud.processed (env := NodeBench.surroundings found) self
           NodeBench.scan)) < 2 ^ 31)%Z.
Proof. cbn. lia. Qed.

Lemma bench_ground_point (x : R) :
  ground_or_far (Finite 3) (NodeBench.point x 0 0.01) = true.
Proof.
  unfold ground_or_far, NodeBench.point, flt.
  cbn [PointXYZ.z PointXYZ.x].
  destruct (Rlt_dec 0.01 0.02) as [_ | Hn]; [reflexivity | lra].
Qed.

Lemma bench_raised_point :
  ground_or_far (Finite 3) (NodeBench.point 1 0 0.5) = false.
Proof.
  unfold ground_or_far, NodeBench.point, fgt, flt.
  cbn [PointXYZ.z PointXYZ.x].
  destruct (Rlt_dec 0.5 0.02) as [Hn | _]; [lra |].
  destruct (Rlt_dec 3 1) as [Hn | _]; [lra | reflexivity].
Qed.

Lemma filter_repeat (A : Type) (f : A -> bool) (x : A) (n : nat) :
  filter f (repeat x n) = if f x then repeat x n else [].
Proof.
  induction n as [| n IH]; [now destruct (f x) |].
  cbn [repeat filter]. rewrite IH. now destruct (f x).
Qed.

Lemma bench_no_store_lost (found : bool) (self : tfPointCloud.t)
    (cloud : list PointXYZ.t) :
  tfPointCloud.no_store_lost (env := NodeBench.surroundings found) self cloud.
Proof. intros i _. reflexivity. Qed.

(** With the store at position 0 undone, the point on the ground that
    comes first in the scan is kept with the potentially dynamic points. *)
Lemma racy_ground_point_dynamic :
  tfPointCloud.static_points (env := NodeBench.racy) NodeBench.node
    NodeBench.scan = []
  /\ tfPointCloud.dynamic_points (env := NodeBench.racy) NodeBench.node
       NodeBench.scan
     = [NodeBench.point 1 0 0.01; NodeBench.point 1 0 0.5].
Proof.
  unfold tfPointCloud.static_points, tfPointCloud.dynamic_points,
    tfPointCloud.ground_flags.
  change (tfPointCloud.processed (env := NodeBench.racy) NodeBench.node
            NodeBench.scan)
    with [NodeBench.point 1 0 0.01; NodeBench.point 1 0 0.5].
  rewrite !is_ground_cons.
  change (tfPointCloud.static_front_threshold NodeBench.node)
    with (Finite 3).
  rewrite bench_raised_point.
  change (tfPointCloud.store_survives 0%Z
            [NodeBench.point 1 0 0.01; NodeBench.point 1 0 0.5] 0%nat)
    with false.
  rewrite andb_false_r. split; reflexivity.
Qed.

(** X18 at concrete inputs: the scan of the bench, with every store in
    place and with the store at position 0 undone. *)
Lemma preprocessing_partitions_cloud_witness :
  (exists self' static_indices dynamic_indices,
     tfPointCloud.preprocessing (env := NodeBench.surroundings true)
       NodeBench.node NodeBench.scan [] []
     = (self', [NodeBench.point 1 0 0.01; NodeBench.point 1 0 0.5],
        static_indices, dynamic_indices)
     /\ Permutation (static_indices ++ dynamic_indices) [0; 1]%Z
     /\ copyPointCloud [NodeBench.point 1 0 0.01; NodeBench.point 1 0 0.5]
          static_indices
        = [NodeBench.point 1 0 0.01]
     /\ copyPointCloud [NodeBench.point 1 0 0.01; NodeBench.point 1 0 0.5]
          dynamic_indices
        = [NodeBench.point 1 0 0.5])
  /\ (exists self' static_indices dynamic_indices,
        tfPointCloud.preprocessing (env := NodeBench.racy)
          NodeBench.node NodeBench.scan [] []
        = (self', [NodeBench.point 1 0 0.01; NodeBench.point 1 0 0.5],
           static_indices, dynamic_indices)
        /\ Permutation (static_indices ++ dynamic_indices) [0; 1]%Z
        /\ copyPointCloud
             [NodeBench.point 1 0 0.01; NodeBench.point 1 0 0.5]
             static_indices
           = []
        /\ copyPointCloud
             [NodeBench.point 1 0 0.01; NodeBench.point 1 0 0.5]
             dynamic_indices
           = [NodeBench.point 1 0 0.01; NodeBench.point 1 0 0.5]).
Proof.
  split.
  - pose proof (preprocessing_partitions_cloud
                  (env := NodeBench.surroundings true) NodeBench.node
                  NodeBench.scan (node_bench_bound true NodeBench.node))
      as H.
    cbv zeta in H.
    destruct H as (self' & s & d & Hrun & Hperm & _ & _ & _ & _ & _ & Hexact).
    destruct (Hexact (bench_no_store_lost true NodeBench.node NodeBench.scan))
      as [Hs Hd].
    exists self', s, d. split; [exact Hrun |]. split; [exact Hperm |].
    change (tfPointCloud.processed (env := NodeBench.surroundings true)
              NodeBench.node NodeBench.scan)
      with [NodeBench.point 1 0 0.01; NodeBench.point 1 0 0.5] in Hs, Hd.
    change (tfPointCloud.static_front_threshold NodeBench.node)
      with (Finite 3) in Hs, Hd.
    cbn [filter] in Hs, Hd.
    rewrite bench_ground_point, bench_raised_point in Hs, Hd.
    split; [exact Hs | exact Hd].
  - pose proof (preprocessing_partitions_cloud
                  (env := NodeBench.racy) NodeBench.node NodeBench.scan
                  ltac:(cbn; lia))
      as H.
    cbv zeta in H.
    destruct H as (self' & s & d & Hrun & Hperm & _ & Hs & Hd & _).
    destruct racy_ground_point_dynamic as [Hs' Hd'].
    exists self', s, d. split; [exact Hrun |]. split; [exact Hperm |].
    split; [exact (eq_trans Hs Hs') | exact (eq_trans Hd Hd')].
Defined.

(** X19 at a concrete input: two messages of the bench. *)
Lemma transform_loaded_once_witness :
  tfPointCloud.load_transform
    (fst (tfPointCloud.msgCallbacks (env := NodeBench.surroundings true)
            NodeBench.node [NodeBench.message; NodeBench.message]))
  = true.
Proof.
  destruct (transform_loaded_once (env := NodeBench.surroundings true)
              NodeBench.node [NodeBench.message; NodeBench.message] eq_refl)
    as [_ Hloaded].
  exact (proj1 (Hloaded ltac:(discriminate))).
Defined.

(** X20 at a concrete input: two messages to the silent bench. *)
Lemma msgCallbacks_without_transform_witness :
  tfPointCloud.msgCallbacks (env := NodeBench.surroundings false)
    NodeBench.node [NodeBench.message; NodeBench.message]
  = (NodeBench.node, []).
Proof.
  exact (msgCallbacks_without_transform (env := NodeBench.surroundings false)
           NodeBench.node [NodeBench.message; NodeBench.message] eq_refl).
Defined.

Lemma crowd_bound :
  (Z.of_nat
     (List.length
        (tfPointCloud.processed (env := NodeBench.surroundings true)
           NodeBench.busy NodeBench.crowd)) < 2 ^ 31)%Z.
Proof. cbn. lia. Qed.

(** X21 at a concrete input: a node that kept one static point receives a
    scan with 51 points above the ground and one on it; the service is
    called and finds the 51 points static, and the node publishes the point
    it kept followed by them, and keeps the point on the ground. *)
Lemma msgCallback_publishes_witness :
  exists self',
    tfPointCloud.msgCallback (env := NodeBench.surroundings true)
      NodeBench.busy NodeBench.crowded
    = (self',
       Some (NodeBench.point 2 0 0.01 :: repeat (NodeBench.point 1 0 0.5) 51))
    /\ tfPointCloud.previous_cloud self' = [NodeBench.point 1 0 0.01]
    /\ tfPointCloud.previous_dynamic self'
       = repeat (NodeBench.point 1 0 0.5) 51
    /\ tfPointCloud.frame_id (tfPointCloud.request self') = 1%Z
    /\ tfPointCloud.counter self' = 2%Z.
Proof.
  destruct (msgCallback_publishes (env := NodeBench.surroundings true)
              NodeBench.busy NodeBench.crowded eq_refl crowd_bound)
    as (self' & published & Hrun & _ & _ & _ & Hdyn & _ & Hframe & Hcount
        & Hmany & _ & _ & Hexact).
  destruct (Hexact (bench_no_store_lost true NodeBench.busy NodeBench.crowd))
    as [Hs Hd].
  change (tfPointCloud.processed (env := NodeBench.surroundings true)
            NodeBench.busy (tfPointCloud.cloud_msg NodeBench.crowded))
    with (repeat (NodeBench.point 1 0 0.5) 51 ++ [NodeBench.point 1 0 0.01])
    in Hs, Hd.
  change (tfPointCloud.static_front_threshold NodeBench.busy)
    with (Finite 3) in Hs, Hd.
  rewrite filter_app, filter_repeat in Hs, Hd.
  cbn [filter] in Hs, Hd.
  rewrite bench_ground_point, bench_raised_point in Hs, Hd.
  cbn [negb app] in Hs, Hd. rewrite app_nil_r in Hd.
  rewrite Hd in Hdyn.
  assert (Hcall :
    tfPointCloud.call (ops := NodeBench.surroundings true)
      (tfPointCloud.request_for (env := NodeBench.surroundings true)
         NodeBench.busy NodeBench.crowded)
    = Some (repeat (NodeBench.point 1 0 0.5) 51)).
  { change (tfPointCloud.call (ops := NodeBench.surroundings true)
              (tfPointCloud.request_for (env := NodeBench.surroundings true)
                 NodeBench.busy NodeBench.crowded))
      with (Some (tfPointCloud.dynamic_points
                    (env := NodeBench.surroundings true) NodeBench.busy
                    (tfPointCloud.cloud_msg NodeBench.crowded))).
    now rewrite <- Hdyn. }
  rewrite <- Hdyn, Hcall in Hmany.
  rewrite repeat_length in Hmany.
  specialize (Hmany ltac:(lia)).
  exists self'. rewrite Hrun, Hmany.
  repeat split; assumption.
Defined.

(** X22 at a concrete input: three messages of the bench. *)
Lemma msgCallbacks_count_witness :
  tfPointCloud.counter
    (fst (tfPointCloud.msgCallbacks (env := NodeBench.surroundings true)
            NodeBench.node
            [NodeBench.message; NodeBench.message; NodeBench.message]))
  = 3%Z.
Proof.
  exact (proj1 (msgCallbacks_count (env := NodeBench.surroundings true)
                  NodeBench.node
                  [NodeBench.message; NodeBench.message; NodeBench.message]
                  eq_refl ltac:(cbn; lia) ltac:(cbn; lia))).
Defined.

Lemma bench_points (found : bool) (self : tfPointCloud.t)
    (cloud : list PointXYZ.t) :
  tfPointCloud.static_points (env := NodeBench.surroundings found) self cloud
  = filter (ground_or_far (tfPointCloud.static_front_threshold self))
      (remove_infinite cloud)
  /\ tfPointCloud.dynamic_points (env := NodeBench.surroundings found) self
       cloud
     = filter
         (fun p =>
            negb (ground_or_far (tfPointCloud.static_front_threshold self) p))
         (remove_infinite cloud).
Proof.
  unfold tfPointCloud.static_points, tfPointCloud.dynamic_points,
    tfPointCloud.ground_flags.
  rewrite (is_ground_no_loss _ _ _ (bench_no_store_lost found self cloud)).
  apply filter_flags_of_test.
Qed.

Lemma bench_scan (self : tfPointCloud.t) :
  tfPointCloud.static_front_threshold self = Finite 3 ->
  tfPointCloud.static_points (env := NodeBench.surroundings true) self
    NodeBench.scan
  = [NodeBench.point 1 0 0.01]
  /\ tfPointCloud.added_by_service (env := NodeBench.surroundings true) self
       NodeBench.message
     = [].
Proof.
  intros Hthr. unfold tfPointCloud.added_by_service.
  destruct (bench_points true self NodeBench.scan) as [Hs Hd].
  change (tfPointCloud.cloud_msg NodeBench.message) with NodeBench.scan.
  rewrite Hs, Hd, Hthr.
  change (remove_infinite NodeBench.scan)
    with [NodeBench.point 1 0 0.01; NodeBench.point 1 0 0.5].
  cbn [filter]. rewrite bench_ground_point, bench_raised_point.
  split; reflexivity.
Qed.

Lemma bench_crowd (self : tfPointCloud.t) :
  tfPointCloud.static_front_threshold self = Finite 3 ->
  tfPointCloud.static_points (env := NodeBench.surroundings true) self
    NodeBench.crowd
  = [NodeBench.point 1 0 0.01]
  /\ tfPointCloud.added_by_service (env := NodeBench.surroundings true) self
       NodeBench.crowded
     = repeat (NodeBench.point 1 0 0.5) 51.
Proof.
  intros Hthr. unfold tfPointCloud.added_by_service.
  change (tfPointCloud.call (ops := NodeBench.surroundings true)
            (tfPointCloud.request_for (env := NodeBench.surroundings true)
               self NodeBench.crowded))
    with (Some (tfPointCloud.dynamic_points
                  (env := NodeBench.surroundings true) self
                  (tfPointCloud.cloud_msg NodeBench.crowded))).
  destruct (bench_points true self NodeBench.crowd) as [Hs Hd].
  change (tfPointCloud.cloud_msg NodeBench.crowded) with NodeBench.crowd.
  rewrite Hs, Hd, Hthr.
  change (remove_infinite NodeBench.crowd)
    with (repeat (NodeBench.point 1 0 0.5) 51 ++ [NodeBench.point 1 0 0.01]).
  rewrite !filter_app, !filter_repeat. cbn [filter].
  rewrite bench_ground_point, bench_raised_point.
  cbn [negb app]. rewrite app_nil_r, repeat_length.
  split; reflexivity.
Qed.

(** X23 at a concrete input: the message of the bench, then the crowded
    one.  The first cloud published is empty; the second is the point on
    the ground of the first scan followed by the 51 points that the
    service finds static in the second. *)
Lemma published_cloud_lags_witness :
  exists self2,
    tfPointCloud.msgCallbacks (env := NodeBench.surroundings true)
      NodeBench.node [NodeBench.message; NodeBench.crowded]
    = (self2,
       [[];
        NodeBench.point 1 0 0.01 :: repeat (NodeBench.point 1 0 0.5) 51])
    /\ tfPointCloud.previous_cloud self2 = [NodeBench.point 1 0 0.01].
Proof.
  destruct (published_cloud_lags (env := NodeBench.surroundings true)
              NodeBench.node NodeBench.message NodeBench.crowded eq_refl
              (node_bench_bound true NodeBench.node) ltac:(cbn; lia))
    as (self1 & self2 & Hfirst & Hrun & Hkept & _).
  rewrite (msgCallback_run (env := NodeBench.surroundings true)
             NodeBench.node NodeBench.message eq_refl
             (node_bench_bound true NodeBench.node)) in Hfirst.
  injection Hfirst as <-.
  destruct (bench_scan NodeBench.node eq_refl) as [Hs1 Ha1].
  change (tfPointCloud.cloud_msg NodeBench.message) with NodeBench.scan
    in Hrun, Hkept.
  change (tfPointCloud.cloud_msg NodeBench.crowded) with NodeBench.crowd
    in Hrun, Hkept.
  match type of Hrun with
  | context [tfPointCloud.added_by_service ?self1 NodeBench.crowded] =>
      destruct (bench_crowd self1 eq_refl) as [Hs2 Ha2]
  end.
  rewrite Ha2 in Hrun. rewrite Hs2 in Hkept. rewrite Ha1, Hs1 in Hrun.
  exists self2. split; [exact Hrun | exact Hkept].
Defined.
